(** * A shallow embedding of pyUSIrest (auth, client, document, usi)

    Python values are modelled as [pyval]; a Python exception as its class
    name and message; the class hierarchy of the exceptions raised by the
    package (builtins and [pyUSIrest.exceptions]) as a parent table. *)

From Stdlib Require Import ZArith String Ascii Numbers.DecimalString.
From stdpp Require Import base gmap strings list.

Open Scope string_scope.
#[local] Set Warnings "-register-all".

(* ------------------------------------------------------------------ *)
(** ** Python values and exceptions *)

Inductive pyval :=
| PNone
| PBool (b : bool)
| PInt (z : Z)
| PStr (s : string)
| PList (l : list pyval)
| PDict (d : list (string * pyval)).

Record exn := mk_exn { exn_type : string; exn_msg : string }.

(** The parent of each exception class used by the package. *)
Definition parent_of (c : string) : option string :=
  if String.eqb c "USIConnectionError" then Some "ConnectionError"
  else if String.eqb c "ConnectionError" then Some "OSError"
  else if String.eqb c "OSError" then Some "Exception"
  else if String.eqb c "TokenExpiredError" then Some "RuntimeError"
  else if String.eqb c "NotReadyError" then Some "RuntimeError"
  else if String.eqb c "NotImplementedError" then Some "RuntimeError"
  else if String.eqb c "RuntimeError" then Some "Exception"
  else if String.eqb c "USIDataError" then Some "Exception"
  else if String.eqb c "NameError" then Some "Exception"
  else if String.eqb c "KeyError" then Some "LookupError"
  else if String.eqb c "IndexError" then Some "LookupError"
  else if String.eqb c "LookupError" then Some "Exception"
  else if String.eqb c "ValueError" then Some "Exception"
  else if String.eqb c "TypeError" then Some "Exception"
  else if String.eqb c "AttributeError" then Some "Exception"
  else if String.eqb c "Exception" then Some "BaseException"
  else None.

Fixpoint mro_aux (fuel : nat) (c : string) : list string :=
  c :: match fuel with
       | O => []
       | S f => match parent_of c with Some p => mro_aux f p | None => [] end
       end.

Definition py_mro (c : string) : list string := mro_aux 8 c.

(** [isinstance(e, cls)] *)
Definition isinstance (e : exn) (cls : string) : bool :=
  existsb (String.eqb cls) (py_mro (exn_type e)).

Inductive result (A : Type) :=
| Ok (a : A)
| Raise (e : exn).
Arguments Ok {A} a.
Arguments Raise {A} e.

Global Instance result_ret : MRet result := fun _ a => Ok a.
Global Instance result_bind : MBind result := fun _ _ k r =>
  match r with Ok a => k a | Raise e => Raise e end.

Definition raise {A} (cls msg : string) : result A := Raise (mk_exn cls msg).

(** Python's [str(n)] for an integer. *)
Definition str_Z (z : Z) : string := NilEmpty.string_of_int (Z.to_int z).

(** Python's [sub in s] on strings. *)
Fixpoint py_contains (sub s : string) : bool :=
  String.prefix sub s ||
  match s with
  | EmptyString => false
  | String _ s' => py_contains sub s'
  end.

(** Python's [key in d] and [d[key]] on a dict value. *)
Fixpoint assoc_get (k : string) (d : list (string * pyval)) : option pyval :=
  match d with
  | [] => None
  | (k', v) :: d' => if String.eqb k k' then Some v else assoc_get k d'
  end.

Definition has_key (v : pyval) (k : string) : result bool :=
  match v with
  | PDict d => Ok (match assoc_get k d with Some _ => true | None => false end)
  | _ => raise "TypeError" "argument of type is not iterable"
  end.

Definition getitem (v : pyval) (k : string) : result pyval :=
  match v with
  | PDict d =>
      match assoc_get k d with
      | Some x => Ok x
      | None => raise "KeyError" ("'" ++ k ++ "'")
      end
  | _ => raise "TypeError" "object is not subscriptable"
  end.

Definition as_str (v : pyval) : result string :=
  match v with PStr s => Ok s | _ => raise "TypeError" "not a str" end.

Definition as_int (v : pyval) : result Z :=
  match v with PInt z => Ok z | _ => raise "TypeError" "not an int" end.

Definition as_list (v : pyval) : result (list pyval) :=
  match v with PList l => Ok l | _ => raise "TypeError" "not a list" end.

(* ------------------------------------------------------------------ *)
(** ** auth.py: [Auth] *)

(** Naive datetimes are microseconds on the local clock; a [timedelta] is
    kept normalised as Python does: [0 <= seconds < 86400] and
    [0 <= microseconds < 10^6], the sign carried by [days]. *)
Definition US_PER_S : Z := 1000000.
Definition US_PER_DAY : Z := 86400 * US_PER_S.

Record timedelta := mk_td { td_days : Z; td_seconds : Z; td_micro : Z }.

Definition timedelta_of_us (us : Z) : timedelta :=
  mk_td (us / US_PER_DAY) ((us mod US_PER_DAY) / US_PER_S) (us mod US_PER_S).

Definition total_us (d : timedelta) : Z :=
  td_days d * US_PER_DAY + td_seconds d * US_PER_S + td_micro d.

(** [datetime.datetime.fromtimestamp(ts)] for an integral timestamp. *)
Definition fromtimestamp (ts : Z) : Z := ts * US_PER_S.

Record Auth := mk_auth {
  token : string;
  header : pyval;
  claims : pyval;
  issued : Z;
  expire : Z
}.

Section AuthModel.
(** [python_jwt.process_jwt], a black box returning header and claims. *)
Variable process_jwt : string -> result (pyval * pyval).

(** [Auth._decode] followed by the [token] setter: the debug line
    formats [self.header['alg']] before [iat] and [exp] are read. *)
Definition set_token (tok : string) : result Auth :=
  hc ← process_jwt tok;
  let '(h, cl) := hc in
  _ ← getitem h "alg";
  iat ← (getitem cl "iat" ≫= as_int);
  exp ← (getitem cl "exp" ≫= as_int);
  Ok (mk_auth tok h cl (fromtimestamp iat) (fromtimestamp exp)).
End AuthModel.

(** [Auth.get_duration]: [self.expire - now]; whichever of its three
    log branches is taken formats [self.claims['name']], so claims
    without a [name] raise before the duration is returned. *)
Definition get_duration (a : Auth) (now : Z) : result timedelta :=
  let duration := timedelta_of_us (expire a - now) in
  _ ← getitem (claims a) "name";
  Ok duration.

(** [Auth.is_expired]: [self.get_duration().days < 0]. *)
Definition is_expired (a : Auth) (now : Z) : result bool :=
  d ← get_duration a now; Ok (Z.ltb (td_days d) 0).

(** The [remainingTime] of the spec: the duration [get_duration]
    computes, as a signed amount. *)
Definition remaining_us (a : Auth) (now : Z) : Z :=
  total_us (timedelta_of_us (expire a - now)).

Record auth_response := mk_auth_response {
  ar_status_code : Z;
  ar_text : string
}.

(** Python truthiness of an optional string argument. *)
Definition truthy (o : option string) : bool :=
  match o with Some s => negb (String.eqb s "") | None => false end.

Definition opt_str (o : option string) : string :=
  match o with Some s => s | None => "" end.

Section AuthInit.
Variable process_jwt : string -> result (pyval * pyval).

(** [Auth.__init__(user, password, token)]; [auth_get user password]
    is [requests.get(auth_url, auth=HTTPBasicAuth(user, password))]. *)
Definition auth_init (auth_get : string -> string -> auth_response)
    (user password tok : option string) : result Auth :=
  if truthy password && truthy user then
    let response := auth_get (opt_str user) (opt_str password) in
    if negb (Z.eqb (ar_status_code response) 200) then
      raise "ConnectionError"
        ("Got status " ++ str_Z (ar_status_code response) ++ ": '"
           ++ ar_text response ++ "'")
    else set_token process_jwt (ar_text response)
  else if truthy tok then set_token process_jwt (opt_str tok)
  else raise "ValueError"
         "You need to provide user/password or a valid token".
End AuthInit.

(* ------------------------------------------------------------------ *)
(** ** client.py: [Client] (verbs, [__check], [follow_url])

    This is the module [src/pyUSIrest/client.py]; [usi.py] imports
    [Client] and [Document] from the [pyUSIrest.client] package instead,
    whose [client.py] is not in src/ and is modelled from the spec
    further below ([live_send]). *)

Inductive verb := GET | POST | PATCH | PUT | DELETE.

Record request := mk_request {
  req_verb : verb;
  req_url : string;
  req_payload : option pyval;
  req_headers : list (string * string)
}.

Record response := mk_response {
  status_code : Z;
  text : string;
  body : pyval
}.

(** The state a [Client] instance carries, together with the requests that
    went out on the network (most recent first). *)
Record client := mk_client {
  auth : Auth;
  headers : list (string * string);
  last_response : option response;
  last_status_code : option Z;
  net_log : list request
}.

Definition set_last (r : response) (c : client) : client :=
  mk_client (auth c) (headers c) (Some r) (Some (status_code r)) (net_log c).

Definition log_request (rq : request) (c : client) : client :=
  mk_client (auth c) (headers c) (last_response c) (last_status_code c)
    (rq :: net_log c).

Section ClientModel.
(** The wall clock read by [datetime.datetime.now()]. *)
Variable now : Z.
(** The remote service: what [requests.<verb>] returns. *)
Variable server : request -> response.

(** [Client.__check(headers)]: an empty or missing header dict falls
    back to the default headers. *)
Definition check (hs : option (list (string * string))) (c : client)
    : result (list (string * string)) :=
  is_expired (auth c) now ≫= fun expired : bool =>
  if expired then raise "RuntimeError" "Your token is expired"
  else match hs with
       | Some ((_ :: _) as h) => Ok h
       | _ => Ok (headers c)
       end.

(** [Client.request], [post], [patch], [delete], [put]: check, then
    [requests.<verb>(url, json=payload, headers=headers)]. *)
Definition send (v : verb) (url : string) (payload : option pyval)
    (hs : option (list (string * string))) (c : client)
    : result response * client :=
  match check hs c with
  | Raise e => (Raise e, c)
  | Ok h =>
      let rq := mk_request v url payload h in
      (Ok (server rq), log_request rq c)
  end.

Definition client_request url hs c := send GET url None hs c.
Definition client_post url payload hs c := send POST url (Some payload) hs c.
Definition client_patch url payload hs c := send PATCH url (Some payload) hs c.
Definition client_delete url hs c := send DELETE url None hs c.
Definition client_put url payload hs c := send PUT url (Some payload) hs c.

(** [Client.follow_url(url)]. *)
Definition follow_url (url : string) (c : client) : result response * client :=
  match client_request url (Some (headers c)) c with
  | (Raise e, c1) => (Raise e, c1)
  | (Ok r, c1) =>
      let c2 := set_last r c1 in
      if negb (Z.eqb (status_code r) 200)
      then (raise "ConnectionError" (text r), c2)
      else (Ok r, c2)
  end.
End ClientModel.

(* ------------------------------------------------------------------ *)
(** ** String operations: [str.replace], [str.split] *)

(** [s.replace(old, new)] for a non-empty [old]: a left-to-right scan
    replacing non-overlapping occurrences; [fuel] bounds the scan. *)
Fixpoint replace_go (fuel : nat) (old new s : string) : string :=
  match fuel with
  | O => s
  | S f =>
      if String.prefix old s
      then new ++ replace_go f old new
                    (substring (String.length old)
                       (String.length s - String.length old) s)
      else match s with
           | EmptyString => EmptyString
           | String c s' => String c (replace_go f old new s')
           end
  end.

Definition py_replace (s old new : string) : string :=
  replace_go (S (String.length s)) old new s.

(** [s.split(sep)] for a one-character separator. *)
Fixpoint py_split (sep : ascii) (s : string) : list string :=
  match s with
  | EmptyString => [EmptyString]
  | String c s' =>
      let rest := py_split sep s' in
      if Ascii.eqb c sep then EmptyString :: rest
      else match rest with
           | x :: r => String c x :: r
           | [] => [String c EmptyString]
           end
  end.

(** [l[-1]] on the (never empty) result of [split]. *)
Definition last_item (l : list string) : string := List.last l EmptyString.

Definition slash : ascii := "/"%char.

(* ------------------------------------------------------------------ *)
(** ** client.py: [Document.clean_url], [Document.follow_self_url] *)

Definition projection_marker : string := "{?projection}".

(** [Document.clean_url(url)]. *)
Definition clean_url (url : string) : string :=
  if py_contains projection_marker url
  then py_replace url projection_marker ""
  else url.

(** [self._links['self']['href']]. *)
Definition self_href (links : pyval) : result string :=
  s ← getitem links "self"; h ← getitem s "href"; as_str h.

Section FollowSelf.
Variable now : Z.
Variable server : request -> response.

(** [Document.follow_self_url()] up to the request and the recorded
    response; the re-parse of the response into the document follows
    and does not touch the client state modelled here. *)
Definition follow_self_url (links : pyval) (c : client)
    : result response * client :=
  match self_href links with
  | Raise e => (Raise e, c)
  | Ok url => follow_url now server (clean_url url) c
  end.
End FollowSelf.

(* ------------------------------------------------------------------ *)
(** ** usi.py: [Submission.read_data] (the submission name) *)

(** The name [Submission.read_data] derives from [self._links]; [None]
    when there is no [self] link and the name is left as it was. *)
Definition submission_name (links : pyval) : result (option string) :=
  match has_key links "self" with
  | Raise e => Raise e
  | Ok false => Ok None
  | Ok true =>
      href ← self_href links;
      let name := last_item (py_split slash href) in
      let name := if py_contains projection_marker name
                  then py_replace name projection_marker ""
                  else name in
      Ok (Some name)
  end.

(* ------------------------------------------------------------------ *)
(** ** document.py: [Document.parse_response], the page generator *)

(** How a generator run ends: the loop finished, an exception escaped, or
    the model's step budget ran out. *)
Inductive stop := Finished | Raised (e : exn) | OutOfFuel.

Section Paginate.
(** [self.get(url).json()]: the body of the page at [url]. *)
Variable fetch : string -> result pyval.

(** [data['_links']['next']['href']]. *)
Definition next_href (data : pyval) : result string :=
  l ← getitem data "_links"; n ← getitem l "next"; h ← getitem n "href";
  as_str h.

(** The [while 'next' in data['_links']] loop, once [data] has been
    yielded: every page is logged (reading its [self] link) and then
    yielded. *)
Fixpoint paginate_loop (fuel : nat) (data : pyval) : list pyval * stop :=
  match fuel with
  | O => ([], OutOfFuel)
  | S f =>
      match getitem data "_links" ≫= fun l => has_key l "next" with
      | Raise e => ([], Raised e)
      | Ok false => ([], Finished)
      | Ok true =>
          match next_href data ≫= fetch with
          | Raise e => ([], Raised e)
          | Ok data' =>
              match getitem data' "_links" ≫= self_href with
              | Raise e => ([], Raised e)
              | Ok _ => let '(ys, st) := paginate_loop f data' in
                        (data' :: ys, st)
              end
          end
      end
  end.

(** [Document.parse_response(response)] with [data = response.json()]:
    the pages it yields, in order, and how it ends. *)
Definition parse_response (fuel : nat) (data : pyval) : list pyval * stop :=
  match getitem data "_links" ≫= self_href with
  | Raise e => ([], Raised e)
  | Ok _ => let '(ys, st) := paginate_loop fuel data in (data :: ys, st)
  end.

(* ---------------------------------------------------------------- *)
(** *** usi.py: collections read page by page *)

(** [document._embedded]: the [_embedded] value read from the data, or
    the [{}] set by [Document.__init__] when the key is absent. *)
Definition embedded_attr (data : pyval) : pyval :=
  match getitem data "_embedded" with Ok e => e | Raise _ => PDict [] end.

(** [for d in pages: for x in d._embedded[key]: if keep(x): yield x];
    [keep] stands for the optional status/team/error filters. *)
Fixpoint yield_items (key : string) (keep : pyval -> bool)
    (pages : list pyval) : list pyval * option exn :=
  match pages with
  | [] => ([], None)
  | p :: ps =>
      match getitem (embedded_attr p) key ≫= as_list with
      | Raise e => ([], Some e)
      | Ok items =>
          let '(ys, err) := yield_items key keep ps in
          (app (List.filter keep items) ys, err)
      end
  end.

Definition collect (key : string) (keep : pyval -> bool) (fuel : nat)
    (data : pyval) : list pyval * stop :=
  let '(pages, st) := parse_response fuel data in
  let '(ys, err) := yield_items key keep pages in
  match err with Some e => (ys, Raised e) | None => (ys, st) end.

(** [Submission.get_samples(...)], from the body [data] of the
    [<self>/contents/samples] document on: the samples it yields. *)
Definition get_samples (keep : pyval -> bool) (fuel : nat) (data : pyval)
    : list pyval * stop :=
  match has_key data "_embedded" with
  | Raise e => ([], Raised e)
  | Ok false => ([], Finished)
  | Ok true => collect "samples" keep fuel data
  end.

(** [Root.get_user_submissions(status, team)], from the body [data] of
    the [userSubmissions] document on. *)
Definition get_user_submissions (keep : pyval -> bool) (fuel : nat)
    (data : pyval) : list pyval * stop :=
  match has_key (embedded_attr data) "submissions" with
  | Raise e => ([], Raised e)
  | Ok false => ([], Finished)
  | Ok true => collect "submissions" keep fuel data
  end.
End Paginate.

(* ------------------------------------------------------------------ *)
(** ** usi.py: by-name lookups *)

Record Team := mk_team { team_name : string; team_data : pyval }.
Record Domain := mk_domain { domainName : string; domain_data : pyval }.

(** [Root.get_team_by_name(team_name)] over the teams
    [get_user_teams()] yields. *)
Fixpoint get_team_by_name (teams : list Team) (name : string) : result Team :=
  match teams with
  | [] => raise "NameError" ("team: " ++ name ++ " not found")
  | t :: ts => if String.eqb (team_name t) name then Ok t
               else get_team_by_name ts name
  end.

(** [User.get_domain_by_name(domain_name)] over the domains
    [get_domains()] yields. *)
Fixpoint get_domain_by_name (domains : list Domain) (name : string)
    : result Domain :=
  match domains with
  | [] => raise "NameError" ("domain: " ++ name ++ " not found")
  | d :: ds => if String.eqb (domainName d) name then Ok d
               else get_domain_by_name ds name
  end.

(* ------------------------------------------------------------------ *)
(** ** usi.py: [TeamMixin.team] *)

Definition py_type_name (v : pyval) : string :=
  match v with
  | PNone => "NoneType" | PBool _ => "bool" | PInt _ => "int"
  | PStr _ => "str" | PList _ => "list" | PDict _ => "dict"
  end.

(** The [team] property getter, from the stored [self._team]. *)
Definition team_prop (team : pyval) : result pyval :=
  match team with
  | PStr s => Ok (PStr s)
  | PDict _ => getitem team "name"
  | PNone => Ok (PStr "")
  | _ => raise "NotImplementedError"
           ("Unknown type: <class '" ++ py_type_name team ++ "'>")
  end.

(* ------------------------------------------------------------------ *)
(** ** usi.py: [check_releasedate] *)

Record date := mk_date { year : Z; month : Z; day : Z }.

Fixpoint zeros (n : nat) : string :=
  match n with O => "" | S k => String "0"%char (zeros k) end.

Definition zpad (w : nat) (z : Z) : string :=
  let s := str_Z z in zeros (w - String.length s) ++ s.

(** [str(datetime.date)]: ISO format [YYYY-MM-DD]. *)
Definition str_date (t : date) : string :=
  zpad 4 (year t) ++ "-" ++ zpad 2 (month t) ++ "-" ++ zpad 2 (day t).

(** [check_releasedate(sample_data)] on a shallow copy of the dict;
    [today] is [datetime.date.today()] at the call. *)
Definition check_releasedate (today : date) (sample_data : gmap string pyval)
    : gmap string pyval :=
  match sample_data !! "releaseDate" with
  | Some _ => sample_data
  | None => <["releaseDate" := PStr (str_date today)]> sample_data
  end.

(* ------------------------------------------------------------------ *)
(** ** Builtins: dict assignment, iteration, [in], [+=], [str.join] *)

(** [d[k] = v] on a dict kept in insertion order: an existing key keeps
    its place, a new key goes last. *)
Fixpoint dict_set {V : Type} (k : string) (v : V) (d : list (string * V))
    : list (string * V) :=
  match d with
  | [] => [(k, v)]
  | (k', v') :: d' =>
      if String.eqb k k' then (k', v) :: d' else (k', v') :: dict_set k v d'
  end.

(** [headers.get(k)] on a header dict. *)
Fixpoint hdr_get (k : string) (d : list (string * string)) : option string :=
  match d with
  | [] => None
  | (k', v) :: d' => if String.eqb k k' then Some v else hdr_get k d'
  end.

(** Whether the character [c] occurs in [s]. *)
Fixpoint has_char (c : ascii) (s : string) : bool :=
  match s with
  | EmptyString => false
  | String c' s' => Ascii.eqb c c' || has_char c s'
  end.

(** [v == s] for a str [s]: only an equal str compares equal. *)
Definition is_str_eq (s : string) (v : pyval) : bool :=
  match v with PStr x => String.eqb x s | _ => false end.

(** [d.items()] and [d.keys()]: the pairs of a dict. *)
Definition dict_view (meth : string) (v : pyval)
    : result (list (string * pyval)) :=
  match v with
  | PDict d => Ok d
  | _ => raise "AttributeError"
           ("'" ++ py_type_name v ++ "' object has no attribute '" ++ meth
              ++ "'")
  end.

(** [for x in v]: a list gives its items, a dict its keys, a str its
    characters. *)
Definition py_iter (v : pyval) : result (list pyval) :=
  match v with
  | PList l => Ok l
  | PDict d => Ok (map (fun kv => PStr kv.1) d)
  | PStr s => Ok (map (fun c => PStr (String c EmptyString))
                      (list_ascii_of_string s))
  | _ => raise "TypeError" ("'" ++ py_type_name v ++ "' object is not iterable")
  end.

(** [x in v] for a str [x]. *)
Definition py_in (x : string) (v : pyval) : result bool :=
  match v with
  | PDict d => Ok (match assoc_get x d with Some _ => true | None => false end)
  | PList l => Ok (existsb (is_str_eq x) l)
  | PStr s => Ok (py_contains x s)
  | _ => raise "TypeError"
           ("argument of type '" ++ py_type_name v ++ "' is not iterable")
  end.

(** [v[k] = x] for a str key [k]. *)
Definition py_setitem (v : pyval) (k : string) (x : pyval) : result pyval :=
  match v with
  | PDict d => Ok (PDict (dict_set k x d))
  | PList _ => raise "TypeError" "list indices must be integers or slices, not str"
  | _ => raise "TypeError"
           ("'" ++ py_type_name v ++ "' object does not support item assignment")
  end.

(** The integer value of an int or a bool. *)
Definition num_of (v : pyval) : option Z :=
  match v with PInt z => Some z | PBool b => Some (Z.b2z b) | _ => None end.

(** [a += b]: lists are extended by any iterable, strs concatenated,
    numbers added. *)
Definition py_iadd (a b : pyval) : result pyval :=
  match a, b with
  | PList x, PList y => Ok (PList (app x y))
  | PList x, PDict _ | PList x, PStr _ => ys ← py_iter b; Ok (PList (app x ys))
  | PStr x, PStr y => Ok (PStr (x ++ y))
  | _, _ =>
      match num_of a, num_of b with
      | Some x, Some y => Ok (PInt (x + y))
      | _, _ => raise "TypeError" "unsupported operand type(s) for +="
      end
  end.

(** [sep.join(v)] *)
Definition py_join (sep : string) (v : pyval) : result string :=
  xs ← py_iter v; ss ← mapM as_str xs; Ok (String.concat sep ss).

(* ------------------------------------------------------------------ *)
(** ** The [pyUSIrest.client] package: the live [Client] verbs *)

(** Modelled from the spec: the success status of each verb in the live
    [Client] ([pyUSIrest/client/client.py], not in src/), from the table
    of section 6: GET 200, POST 201, PATCH 200, PUT 200, DELETE 204. *)
Definition expected_status (v : verb) : Z :=
  match v with GET => 200 | POST => 201 | PATCH => 200 | PUT => 200 | DELETE => 204 end.

(** Modelled from the spec: the status classification of the live
    [Client] (section 4.2): 5xx raises the [ConnectionError]-class
    [USIConnectionError], 4xx the [DataError]-class [USIDataError] (with
    the ["Error with request"] message test_root.py expects), another
    status than the verb's expected one a generic failure carrying the
    body, and the expected status returns the response. *)
Definition classify_status (v : verb) (r : response) : result response :=
  let code := status_code r in
  if (500 <=? code)%Z && (code <? 600)%Z then raise "USIConnectionError" (text r)
  else if (400 <=? code)%Z && (code <? 500)%Z
  then raise "USIDataError" ("Error with request: " ++ text r)
  else if Z.eqb code (expected_status v) then Ok r
  else raise "Exception" (text r).

(** Modelled from the spec: the header overrides of a live call merged
    over the client's default headers (section 4.2). *)
Definition merge_headers (hs : option (list (string * string))) (c : client)
    : list (string * string) :=
  match hs with
  | Some h => foldl (fun d kv => dict_set kv.1 kv.2 d) (headers c) h
  | None => headers c
  end.

Section LiveClient.
Variable now : Z.
Variable server : request -> response.

(** Modelled from the spec: the live [Client.__check] (section 4.2: the
    token is asked "expired?" first, [TokenExpiredError] if so; header
    overrides are merged over the defaults). The question is
    [Auth.is_expired] of auth.py, which is in src/. *)
Definition live_check (hs : option (list (string * string))) (c : client)
    : result (list (string * string)) :=
  is_expired (auth c) now ≫= fun expired : bool =>
  if expired then raise "TokenExpiredError" "Your token is expired"
  else Ok (merge_headers hs c).

(** Modelled from the spec: a live verb call (section 4.2): the check,
    one request, the last response and its status recorded, then the
    status classified. *)
Definition live_send (v : verb) (url : string) (payload : option pyval)
    (hs : option (list (string * string))) (c : client)
    : result response * client :=
  match live_check hs c with
  | Raise e => (Raise e, c)
  | Ok h =>
      let rq := mk_request v url payload h in
      let r := server rq in
      (classify_status v r, set_last r (log_request rq c))
  end.

(** [url_normalize], from the [url_normalize] package. *)
Variable url_normalize : string -> string.

(** [Root.get_submission_by_name(name)] (usi.py): [Submission(self.auth)]
    is a new document holding the root's token and headers, and
    [submission.get(url)] is a live GET (expected 200) whose body the
    document then reads; a [USIDataError] with a recorded 404 becomes
    [NameError], any other error propagates. *)
Definition get_submission_by_name (api_root name : string) (c : client)
    : result pyval * client :=
  let url := url_normalize (String.concat "/" [api_root; "submissions"; name]) in
  let submission := mk_client (auth c) (headers c) None None (net_log c) in
  match live_send GET url None None submission with
  | (Ok r, s1) => (Ok (body r), s1)
  | (Raise e, s1) =>
      if isinstance e "USIDataError" then
        match last_status_code s1 with
        | Some 404%Z =>
            (raise "NameError" ("submission: '" ++ name ++ "' not found"), s1)
        | _ => (Raise e, s1)
        end
      else (Raise e, s1)
  end.
End LiveClient.

(* ------------------------------------------------------------------ *)
(** ** client.py: the class-level [Client.headers] dict *)

(** The [Client.auth] setter: [self.headers['Authorization'] = ...].
    [headers] is a class attribute and the setter never rebinds it on the
    instance, so the dict it updates is the one all clients share. *)
Definition set_auth (a : Auth) (cls : list (string * string))
    : list (string * string) :=
  dict_set "Authorization" ("Bearer " ++ token a) cls.

(** [Client(auth)] when the class dict is [cls]; the class dict is
    [set_auth a cls] afterwards. *)
Definition new_client (a : Auth) (cls : list (string * string)) : client :=
  mk_client a (set_auth a cls) None None [].

(** [self.headers] read at call time: the class dict as it is then. *)
Definition at_class (cls : list (string * string)) (c : client) : client :=
  mk_client (auth c) cls (last_response c) (last_status_code c) (net_log c).

(** [self._links[tag]['href']]. *)
Definition link_href (links : pyval) (tag : string) : result string :=
  l ← getitem links tag; h ← getitem l "href"; as_str h.

Section DocumentUrls.
Variable now : Z.
Variable server : request -> response.

(** [Document.read_url(auth, url)] up to the response: a new [Client],
    on the class dict [cls], follows the cleaned URL. *)
Definition read_url (a : Auth) (cls : list (string * string)) (url : string)
    : result response * client :=
  follow_url now server (clean_url url) (new_client a cls).

(** [Document.follow_url(tag)] up to the response. *)
Definition document_follow_url (links : pyval) (tag : string) (c : client)
    : result response * client :=
  match link_href links tag with
  | Raise e => (Raise e, c)
  | Ok url => follow_url now server url c
  end.
End DocumentUrls.

(* ------------------------------------------------------------------ *)
(** ** client.py: [Document.read_data], [__update_key] *)

(** [Document.__update_key(key, value, force)] on the attribute namespace
    [obj] of the instance ([hasattr] is a lookup in it). *)
Definition update_key (obj : gmap string pyval) (key : string) (value : pyval)
    (force : bool) : gmap string pyval :=
  match obj !! key with
  | Some _ => <[key := value]> obj
  | None => if force then <[key := value]> obj else obj
  end.

(** [Document.read_data(data, force)] *)
Definition read_data (obj : gmap string pyval) (data : list (string * pyval))
    (force : bool) : gmap string pyval :=
  <["data" := PDict data]>
    (foldl (fun o kv => update_key o kv.1 kv.2 force) obj data).

(* ------------------------------------------------------------------ *)
(** ** client.py: [Document.__paginate], [Document.parse_response] *)

Section OldPaginate.
(** [super().parse_response(super().follow_url(url))]: the body of the
    page at [url]. *)
Variable fetch : string -> result pyval.

(** [new_data['_embedded'][key] += value] *)
Definition extend_embedded (new_data : pyval) (kv : string * pyval)
    : result pyval :=
  e ← getitem new_data "_embedded";
  cur ← getitem e kv.1;
  merged ← py_iadd cur kv.2;
  e' ← py_setitem e kv.1 merged;
  py_setitem new_data "_embedded" e'.

Fixpoint extend_all (new_data : pyval) (items : list (string * pyval))
    : result pyval :=
  match items with
  | [] => Ok new_data
  | kv :: rest => nd ← extend_embedded new_data kv; extend_all nd rest
  end.

(** The [while 'next' in data['_links']] loop of [__paginate]; [None]
    when the step budget runs out. *)
Fixpoint paginate_pages (fuel : nat) (new_data data : pyval)
    : option (result pyval) :=
  match fuel with
  | O => None
  | S f =>
      match getitem data "_links" ≫= (fun l => has_key l "next") with
      | Raise e => Some (Raise e)
      | Ok false => Some (Ok new_data)
      | Ok true =>
          match (url ← next_href data;
                 data' ← fetch url;
                 items ← (getitem data' "_embedded" ≫= dict_view "items");
                 nd ← extend_all new_data items;
                 Ok (nd, data')) with
          | Raise e => Some (Raise e)
          | Ok (nd, data') => paginate_pages f nd data'
          end
      end
  end.

(** [Document.__paginate(data)]: [new_data] starts as a copy of [data]. *)
Definition paginate (fuel : nat) (data : pyval) : option (result pyval) :=
  paginate_pages fuel data data.

(** [data['page']['totalPages'] > 1] *)
Definition gt_one (v : pyval) : result bool :=
  match num_of v with
  | Some z => Ok (Z.ltb 1 z)
  | None => raise "TypeError" "'>' not supported"
  end.

(** ['page' in data and data['page']['totalPages'] > 1] *)
Definition has_pages (data : pyval) : result bool :=
  has_key data "page" ≫= fun hp : bool =>
    if hp then (p ← getitem data "page"; t ← getitem p "totalPages"; gt_one t)
    else Ok false.

(** [Document.parse_response(response, force)] (client.py) on the body
    [data]: the attribute namespace afterwards. *)
Definition doc_parse_response (fuel : nat) (obj : gmap string pyval)
    (data : pyval) (force : bool) : option (result (gmap string pyval)) :=
  match has_pages data with
  | Raise e => Some (Raise e)
  | Ok false => Some (d ← dict_view "keys" data; Ok (read_data obj d force))
  | Ok true =>
      match paginate fuel data with
      | None => None
      | Some (Raise e) => Some (Raise e)
      | Some (Ok d) => Some (ds ← dict_view "keys" d; Ok (read_data obj ds force))
      end
  end.
End OldPaginate.

(* ------------------------------------------------------------------ *)
(** ** usi.py: [check_relationship] *)

(** The loop [for relationship in ...: if 'team' not in relationship:
    relationship['team'] = team]: the relationships afterwards (a dict
    is updated in place, so the updates done before an exception stay)
    and the exception, if any. *)
Fixpoint add_team (team : pyval) (rels : list pyval)
    : list pyval * option exn :=
  match rels with
  | [] => ([], None)
  | r :: rs =>
      match py_in "team" r with
      | Raise e => (r :: rs, Some e)
      | Ok true => let '(rs', err) := add_team team rs in (r :: rs', err)
      | Ok false =>
          match py_setitem r "team" team with
          | Raise e => (r :: rs, Some e)
          | Ok r' => let '(rs', err) := add_team team rs in (r' :: rs', err)
          end
      end
  end.

(** [check_relationship(sample_data, team)]: the outcome, and the
    caller's [sample_data] afterwards. The copy is shallow: the copy and
    the caller's dict share the relationship list and its dicts. *)
Definition check_relationship (team : pyval) (sample_data : gmap string pyval)
    : result (gmap string pyval) * gmap string pyval :=
  match sample_data !! "sampleRelationships" with
  | None => (Ok sample_data, sample_data)
  | Some (PList l) =>
      let '(l', err) := add_team team l in
      let sd := <["sampleRelationships" := PList l']> sample_data in
      (match err with None => Ok sd | Some e => Raise e end, sd)
  | Some v =>
      match py_iter v with
      | Raise e => (Raise e, sample_data)
      | Ok xs =>
          let '(_, err) := add_team team xs in
          (match err with None => Ok sample_data | Some e => Raise e end,
           sample_data)
      end
  end.

(** [fixed_data] in [Submission.create_sample] and [Sample.patch]:
    [check_releasedate(check_relationship(sample_data, self.team))]. *)
Definition fix_sample_data (today : date) (team : pyval)
    (sample_data : gmap string pyval) : result (gmap string pyval) :=
  fixed ← fst (check_relationship team sample_data);
  Ok (check_releasedate today fixed).

(* ------------------------------------------------------------------ *)
(** ** usi.py: validation results, [Submission.has_errors], [finalize] *)

(** A [ValidationResult] as read from the service. *)
Record validation := mk_validation {
  validationStatus : string;
  overallValidationOutcomeByAuthor : pyval;
  errorMessages : pyval
}.

(** The loop of [ValidationResult.has_errors(ignorelist)]. *)
Fixpoint has_errors_loop (messages : pyval) (ignorelist : list string)
    (items : list (string * pyval)) (acc : bool) : result bool :=
  match items with
  | [] => Ok acc
  | (key, value) :: rest =>
      if is_str_eq "Error" value && negb (existsb (String.eqb key) ignorelist)
      then _ ← (getitem messages key ≫= py_join ", ");
           has_errors_loop messages ignorelist rest true
      else has_errors_loop messages ignorelist rest acc
  end.

(** [ValidationResult.has_errors(ignorelist)] *)
Definition vr_has_errors (v : validation) (ignorelist : list string)
    : result bool :=
  items ← dict_view "items" (overallValidationOutcomeByAuthor v);
  has_errors_loop (errorMessages v) ignorelist items false.

(** [collections.Counter(xs)]: keys in first-seen order with counts. *)
Fixpoint counter_add {A} (eqb : A -> A -> bool) (x : A) (c : list (A * nat))
    : list (A * nat) :=
  match c with
  | [] => [(x, 1%nat)]
  | (k, n) :: c' =>
      if eqb k x then (k, S n) :: c' else (k, n) :: counter_add eqb x c'
  end.

Definition counter {A} (eqb : A -> A -> bool) (xs : list A) : list (A * nat) :=
  foldl (fun c x => counter_add eqb x c) [] xs.

(** [x in counter] *)
Definition counter_in {A} (eqb : A -> A -> bool) (x : A) (c : list (A * nat))
    : bool :=
  existsb (fun kn => eqb kn.1 x) c.

(** [counter[x]]: a [collections.Counter] answers [0] for a missing key. *)
Definition counter_get {A} (eqb : A -> A -> bool) (x : A) (c : list (A * nat))
    : nat :=
  match List.find (fun kn => eqb kn.1 x) c with Some kn => kn.2 | None => O end.

(** [Submission.get_status()] over the results
    [get_validation_results()] yields. *)
Definition get_status (vs : list validation) : list (string * nat) :=
  counter String.eqb (map validationStatus vs).

(** [Submission.has_errors(ignorelist)] *)
Definition submission_has_errors (vs : list validation)
    (ignorelist : list string) : result (list (bool * nat)) :=
  if counter_in String.eqb "Pending" (get_status vs)
  then raise "NotReadyError" "You can check errors after validation is completed"
  else errors ← mapM (fun v => vr_has_errors v ignorelist) vs;
       Ok (counter Bool.eqb errors).

(** The checks [Submission.finalize(ignorelist)] makes before it reloads
    and puts the new status; [ready] is [self.check_ready()]. *)
Definition finalize_checks (ready : bool) (vs : list validation)
    (ignorelist : list string) : result unit :=
  if negb ready then raise "NotReadyError" "Submission not ready for finalization"
  else c ← submission_has_errors vs ignorelist;
       if counter_in Bool.eqb true c
       then raise "USIDataError" "Submission has errors, fix them"
       else Ok tt.

(* ------------------------------------------------------------------ *)
(** ** usi.py: [User.create_user] *)

Definition content_type_json : string := "application/json;charset=UTF-8".



(* ------------------------------------------------------------------ *)
(** ** usi.py: [Sample.read_data] (the name), [Domain.__str__] *)

(** The name [Sample.read_data] derives from [self._links]: the last
    segment of the [self] URL, with no marker removal. *)
Definition sample_name (links : pyval) : result (option string) :=
  match has_key links "self" with
  | Raise e => Raise e
  | Ok false => Ok None
  | Ok true => href ← self_href links; Ok (Some (last_item (py_split slash href)))
  end.

(** ["%s" % x] for an attribute holding a str or [None]. *)
Definition str_opt (o : option string) : string :=
  match o with Some s => s | None => "None" end.

(** [Domain.__str__] *)
Definition domain_str (domainReference name domainDesc : option string)
    : result string :=
  if negb (truthy domainReference) then Ok "domain not yet initialized"
  else match nth_error (py_split "-"%char (opt_str domainReference)) 1 with
       | None => raise "IndexError" "list index out of range"
       | Some reference =>
           Ok (reference ++ " " ++ str_opt name ++ " " ++ str_opt domainDesc)
       end.

(* ------------------------------------------------------------------ *)
(** ** Spec-side predicates used in the statements *)

(** The relationship a [check_relationship] call leaves: one with a
    [team] is kept, one without gets [team]. *)
Definition with_team (team : pyval) (r : list (string * pyval))
    : list (string * pyval) :=
  match assoc_get "team" r with Some _ => r | None => dict_set "team" team r end.

(** An outcome that counts as an error once [ignorelist] is applied. *)
Definition unignored_error (ignorelist : list string) (kv : string * pyval)
    : bool :=
  is_str_eq "Error" kv.2 && negb (existsb (String.eqb kv.1) ignorelist).

(** A page that also carries [page.totalPages]. *)
Definition tpage_items (key url : string) (next : option string)
    (items : list pyval) (total : Z) : list (string * pyval) :=
  [("_links",
    PDict (("self", PDict [("href", PStr url)]) ::
           match next with
           | Some n => [("next", PDict [("href", PStr n)])]
           | None => []
           end));
   ("_embedded", PDict [(key, PList items)]);
   ("page", PDict [("totalPages", PInt total)])].

(* ------------------------------------------------------------------ *)
(** ** Fixtures: concrete clients, services and HAL pages *)

(** A client holding a token that expires at timestamp 10^9, queried at
    timestamp 0. *)
Definition alg_header : pyval := PDict [("alg", PStr "RS256")].
Definition named_claims : pyval := PDict [("name", PStr "Foo Bar")].

Definition live_client : client :=
  mk_client (mk_auth "tok" alg_header named_claims 0 (fromtimestamp 1000000000))
    [("Accept", "application/hal+json")] None None [].

Definition reply (code : Z) (msg : string) : request -> response :=
  fun _ => mk_response code msg PNone.

Definition expired_client : client :=
  mk_client (mk_auth "tok" alg_header named_claims 0 (fromtimestamp 100))
    [("Accept", "application/hal+json")] None None [].

(** An expired token whose claims carry no ['name']. *)
Definition nameless_expired_client : client :=
  mk_client (mk_auth "tok" alg_header (PDict [("exp", PInt 100)]) 0 (fromtimestamp 100))
    [("Accept", "application/hal+json")] None None [].

Definition jwt_unused : string -> result (pyval * pyval) :=
  fun _ => raise "ValueError" "invalid token".

(** A HAL page at [url] listing [items] under [_embedded][key], with a
    [next] link when [next] is given. *)
Definition mk_page (key url : string) (next : option string)
    (items : list pyval) : pyval :=
  PDict [("_links",
          PDict (("self", PDict [("href", PStr url)]) ::
                 match next with
                 | Some n => [("next", PDict [("href", PStr n)])]
                 | None => []
                 end));
         ("_embedded", PDict [(key, PList items)])].

Definition next_url (rs : list (string * list pyval)) : option string :=
  option_map fst (hd_error rs).

(** A result set split in pages: each entry is a page URL and its items;
    page [k] links to page [k+1]. *)
Fixpoint build_pages (key : string) (rs : list (string * list pyval))
    : list pyval :=
  match rs with
  | [] => []
  | (u, items) :: rest => mk_page key u (next_url rest) items
                          :: build_pages key rest
  end.

(** [fetch] serves every page after the first at its URL. *)
Fixpoint served (fetch : string -> result pyval) (key : string)
    (rs : list (string * list pyval)) : Prop :=
  match rs with
  | [] => True
  | _ :: rest =>
      match rest with
      | (u, items) :: rest' =>
          fetch u = Ok (mk_page key u (next_url rest') items)
      | [] => True
      end /\ served fetch key rest
  end.

(** The collection a page carries under [_embedded][key]. *)
Definition page_items (key : string) (p : pyval) : list pyval :=
  match getitem p "_embedded" ≫= fun e => getitem e key ≫= as_list with
  | Ok l => l
  | Raise _ => []
  end.

Definition page1_url : string := "https://h/api/submissions/s1/contents/samples".
Definition page2_url : string := "https://h/api/submissions/s1/contents/samples?page=1".

Definition two_page_fetch (url : string) : result pyval :=
  if String.eqb url page2_url
  then Ok (mk_page "samples" page2_url None [PStr "c"])
  else raise "USIDataError" "Error with request".

Definition self_links (href : string) : pyval :=
  PDict [("self", PDict [("href", PStr href)])].

(** A samples response with [_embedded] present but no [samples] key. *)
Definition samples_body_no_key : pyval :=
  PDict [("_links", self_links page1_url); ("_embedded", PDict [])].

(* ------------------------------------------------------------------ *)
(** ** Fixtures and predicates of the further properties *)



(** An [Auth] holding [tok], expiring in 2001. *)
Definition auth_with (tok : string) : Auth :=
  mk_auth tok alg_header named_claims 0 (fromtimestamp 1000000000).

(** The headers [Client] starts from. *)
Definition default_headers : list (string * string) :=
  [("Accept", "application/hal+json"); ("User-Agent", "pyUSIrest 0.3.0.dev0")].

(** The relationship [r'] a call leaves in place of [r]. *)
Definition team_added (team : pyval) (r r' : list (string * pyval)) : Prop :=
  assoc_get "team" r' = Some (match assoc_get "team" r with Some t => t | None => team end) /\
  (is_Some (assoc_get "team" r) -> r' = r) /\
  (forall k, k <> "team" -> assoc_get k r' = assoc_get k r).

Definition dict_has_team (r : pyval) : Prop :=
  forall d, r = PDict d -> is_Some (assoc_get "team" d).

(* ================================================================== *)
(** * Properties *)

Open Scope Z_scope.

(* ------------------------------------------------------------------ *)
(** ** Helper lemmas *)

Lemma prefix_app_self (t b : string) : String.prefix t (t ++ b) = true.
Proof.
  induction t as [|c t IH]; simpl.
  - destruct b; reflexivity.
  - destruct (Ascii.ascii_dec c c) as [_|n]; [exact IH | congruence].
Qed.


Lemma py_contains_app_mid (a t b : string) : py_contains t (a ++ t ++ b) = true.
Proof.
  induction a as [|c a IH]; simpl.
  - destruct t as [|c t]; simpl.
    + destruct b; reflexivity.
    + destruct (Ascii.ascii_dec c c) as [_|n]; [|congruence].
      rewrite prefix_app_self. reflexivity.
  - rewrite IH. apply orb_true_r.
Qed.

Lemma replace_go_absent (old new s : string) (fuel : nat) :
  py_contains old s = false -> replace_go fuel old new s = s.
Proof.
  revert fuel. induction s as [|c s IH]; intros fuel H; destruct fuel; simpl;
    try reflexivity.
  - simpl in H. apply orb_false_iff in H as [Hp _].
    change (String.prefix old "") with (match old with "" => true | _ => false end).
    rewrite Hp. reflexivity.
  - simpl in H. apply orb_false_iff in H as [Hp Hs].
    rewrite Hp, (IH fuel Hs). reflexivity.
Qed.

Lemma py_replace_absent (old new s : string) :
  py_contains old s = false -> py_replace s old new = s.
Proof. apply replace_go_absent. Qed.

(** [timedelta] normalisation keeps the amount it was built from. *)
Lemma total_us_timedelta_of_us (x : Z) : total_us (timedelta_of_us x) = x.
Proof.
  unfold total_us, timedelta_of_us, US_PER_DAY, US_PER_S; simpl.
  rewrite <- (Z.mod_mod_divide x (86400 * 1000000) 1000000)
    by (exists 86400%Z; reflexivity).
  pose proof (Z.div_mod x (86400 * 1000000)) as H1.
  pose proof (Z.div_mod (x mod (86400 * 1000000)) 1000000) as H2.
  lia.
Qed.

Lemma div_day_neg_iff (x : Z) : x / US_PER_DAY < 0 <-> x < 0.
Proof.
  unfold US_PER_DAY, US_PER_S. split; intro H.
  - destruct (Z_lt_le_dec x 0) as [|Hx]; [assumption|].
    pose proof (Z.div_pos x (86400 * 1000000) Hx ltac:(lia)). lia.
  - apply Z.div_lt_upper_bound; lia.
Qed.

(* ------------------------------------------------------------------ *)
(** ** C2: token expiry *)

(** [Auth.is_expired] when the claims carry a ['name']: the sign test on
    the normalised [timedelta]. *)
Lemma is_expired_named (a : Auth) (now : Z) (nm : pyval) :
  getitem (claims a) "name" = Ok nm ->
  is_expired a now = Ok (Z.ltb (td_days (timedelta_of_us (expire a - now))) 0).
Proof.
  intros Hn. unfold is_expired, get_duration. rewrite Hn. reflexivity.
Qed.

(** [Auth.is_expired] when the ['name'] lookup of [get_duration] fails. *)
Lemma is_expired_unnamed (a : Auth) (now : Z) (e : exn) :
  getitem (claims a) "name" = Raise e -> is_expired a now = Raise e.
Proof.
  intros Hn. unfold is_expired, get_duration. rewrite Hn. reflexivity.
Qed.

Lemma td_days_neg_iff (x : Z) : td_days (timedelta_of_us x) < 0 <-> x < 0.
Proof. simpl. apply div_day_neg_iff. Qed.

Lemma is_expired_named_iff (a : Auth) (now : Z) (nm : pyval) :
  getitem (claims a) "name" = Ok nm ->
  (is_expired a now = Ok true <-> remaining_us a now < 0) /\
  (is_expired a now = Ok false <-> 0 <= remaining_us a now).
Proof.
  intros Hn. rewrite (is_expired_named a now nm Hn).
  unfold remaining_us. rewrite total_us_timedelta_of_us.
  pose proof (td_days_neg_iff (expire a - now)) as D.
  destruct (Z.ltb_spec (td_days (timedelta_of_us (expire a - now))) 0) as [L|L].
  - apply D in L. split; split; intro H; try reflexivity; try discriminate; lia.
  - assert (~ (expire a - now < 0)) by (intro X; apply D in X; lia).
    split; split; intro HH; try reflexivity; try discriminate; lia.
Qed.

(** C2 (counterexample): an expired token whose claims carry no
    ['name'] makes [is_expired] raise [KeyError('name')] from the debug
    line of [get_duration] instead of returning [True]. *)
Lemma is_expired_nameless_key_error :
  remaining_us (auth nameless_expired_client) (fromtimestamp 200) < 0 /\
  is_expired (auth nameless_expired_client) (fromtimestamp 200)
    = raise "KeyError" "'name'".
Proof. vm_compute. split; reflexivity. Qed.

(** C2 (amended): the remaining time is [expire - now]. For a token
    whose claims carry a ['name'], [is_expired] returns [True] exactly
    when it is negative (zero remaining is not expired; the [days < 0]
    test agrees with the sign of the whole duration, sub-day negative
    durations included); otherwise [is_expired] raises the error of the
    ['name'] lookup ([KeyError('name')], or [TypeError] for claims that
    are not a mapping). *)
Theorem is_expired_iff_remaining_negative (a : Auth) (now : Z) :
  remaining_us a now = expire a - now /\
  (forall nm, getitem (claims a) "name" = Ok nm ->
     exists b, is_expired a now = Ok b /\ (b = true <-> remaining_us a now < 0)) /\
  (forall e, getitem (claims a) "name" = Raise e -> is_expired a now = Raise e).
Proof.
  split; [unfold remaining_us; apply total_us_timedelta_of_us|]. split.
  - intros nm Hn. exists (Z.ltb (td_days (timedelta_of_us (expire a - now))) 0).
    split; [exact (is_expired_named a now nm Hn)|].
    unfold remaining_us. rewrite total_us_timedelta_of_us, Z.ltb_lt.
    simpl. apply div_day_neg_iff.
  - intros e He. exact (is_expired_unnamed a now e He).
Qed.

Example expired_30_seconds_ago :
  let a := mk_auth "t" alg_header named_claims 0 (1000 * US_PER_S) in
  td_days (timedelta_of_us (expire a - 1030 * US_PER_S)) = -1 /\
  is_expired a (1030 * US_PER_S) = Ok true /\
  is_expired a (1000 * US_PER_S) = Ok false.
Proof. vm_compute. auto. Qed.

(* ------------------------------------------------------------------ *)
(** ** C1: status classes of a live verb call *)

Lemma isinstance_usi_connection :
  isinstance (mk_exn "USIConnectionError" "") "ConnectionError" = true /\
  isinstance (mk_exn "USIConnectionError" "") "USIDataError" = false.
Proof. vm_compute. split; reflexivity. Qed.

(** C1: with a live token, a verb call sends one request carrying the
    merged headers and records its response; the status then decides:
    5xx raises [USIConnectionError] (a [ConnectionError], not a
    [USIDataError]), 4xx raises [USIDataError] (not a [ConnectionError])
    with the body text, any other status than the verb's expected one
    raises a generic [Exception] carrying the body, in neither class, and
    exactly the expected status returns the response. *)
Theorem live_send_status_classes (now : Z) (server : request -> response)
    (v : verb) (url : string) (payload : option pyval)
    (hs : option (list (string * string))) (c : client) :
  is_expired (auth c) now = Ok false ->
  let rq := mk_request v url payload (merge_headers hs c) in
  let r := server rq in
  let res := live_send now server v url payload hs c in
  snd res = set_last r (log_request rq c) /\
  (500 <= status_code r < 600 ->
     exists e, fst res = Raise e /\ exn_msg e = text r /\
       isinstance e "ConnectionError" = true /\
       isinstance e "USIDataError" = false) /\
  (400 <= status_code r < 500 ->
     exists e, fst res = Raise e /\ py_contains (text r) (exn_msg e) = true /\
       isinstance e "USIDataError" = true /\
       isinstance e "ConnectionError" = false) /\
  (~ (400 <= status_code r < 600) -> status_code r <> expected_status v ->
     exists e, fst res = Raise e /\ exn_msg e = text r /\
       isinstance e "USIDataError" = false /\
       isinstance e "ConnectionError" = false) /\
  (status_code r = expected_status v -> fst res = Ok r).
Proof.
  intros Hexp rq r res. unfold res, live_send, live_check.
  rewrite Hexp. cbn [mbind result_bind]. fold rq r.
  split; [reflexivity|]. cbn [fst]. unfold classify_status.
  assert (Hexp_range : forall w, 200 <= expected_status w < 300)
    by (intros []; simpl; lia).
  split; [|split; [|split]].
  - intros H. destruct (Z.leb_spec 500 (status_code r)); [|lia].
    destruct (Z.ltb_spec (status_code r) 600); [|lia]. simpl.
    eexists; split; [reflexivity|]. vm_compute. auto.
  - intros H. destruct (Z.leb_spec 500 (status_code r)); [lia|].
    destruct (Z.leb_spec 400 (status_code r)); [|lia].
    destruct (Z.ltb_spec (status_code r) 500); [|lia]. simpl.
    eexists; split; [reflexivity|]. cbn [exn_msg].
    split; [|vm_compute; auto].
    assert (E : forall s : string, s ++ "" = s)
      by (induction s as [|x s IH]; [reflexivity|];
          change (String x (s ++ "") = String x s); rewrite IH; reflexivity).
    rewrite <- (E (text r)) at 2. apply py_contains_app_mid.
  - intros H Hne. destruct (Z.leb_spec 500 (status_code r)).
    + destruct (Z.ltb_spec (status_code r) 600); [lia|].
      destruct (Z.leb_spec 400 (status_code r)); [|lia]. simpl.
      destruct (Z.ltb_spec (status_code r) 500); [lia|]. simpl.
      apply Z.eqb_neq in Hne. rewrite Hne.
      eexists; split; [reflexivity|]. vm_compute. auto.
    + simpl. destruct (Z.leb_spec 400 (status_code r)).
      * destruct (Z.ltb_spec (status_code r) 500); [lia|]. simpl.
        apply Z.eqb_neq in Hne. rewrite Hne.
        eexists; split; [reflexivity|]. vm_compute. auto.
      * simpl. apply Z.eqb_neq in Hne. rewrite Hne.
        eexists; split; [reflexivity|]. vm_compute. auto.
  - intros H. pose proof (Hexp_range v). rewrite H.
    destruct (Z.leb_spec 500 (expected_status v)); [lia|]. simpl.
    destruct (Z.leb_spec 400 (expected_status v)); [lia|]. simpl.
    rewrite Z.eqb_refl. reflexivity.
Qed.

Lemma live_send_status_classes_witness :
  is_expired (auth live_client) 0 = Ok false /\
  snd (live_send 0 (reply 404 "Not Found") GET "u" None None live_client)
    = set_last (mk_response 404 "Not Found" PNone)
        (log_request (mk_request GET "u" None (headers live_client)) live_client).
Proof.
  split; [vm_compute; reflexivity|].
  refine (proj1 (live_send_status_classes 0 (reply 404 "Not Found") GET "u"
                   None None live_client _)).
  vm_compute. reflexivity.
Defined.

(** The mocked responses of the spec's classification scenario. *)
Example live_send_mocked_statuses :
  fst (live_send 0 (reply 500 "Server Error") GET "u" None None live_client)
    = raise "USIConnectionError" "Server Error" /\
  fst (live_send 0 (reply 404 "Not Found") GET "u" None None live_client)
    = raise "USIDataError" "Error with request: Not Found" /\
  fst (live_send 0 (reply 201 "Created") GET "u" None None live_client)
    = raise "Exception" "Created" /\
  fst (live_send 0 (reply 201 "Created") POST "u" None None live_client)
    = Ok (mk_response 201 "Created" PNone).
Proof. vm_compute. repeat split. Qed.

(* ------------------------------------------------------------------ *)
(** ** C3: the expiry gate of a live verb call *)

(** C3 (counterexample): with an expired token whose claims carry no
    ['name'], a GET fails with [KeyError('name')], raised while asking
    the token whether it has expired, not with [TokenExpiredError]. *)
Lemma expired_nameless_get_key_error :
  remaining_us (auth nameless_expired_client) (fromtimestamp 200) < 0 /\
  live_send (fromtimestamp 200) (reply 200 "ok") GET "https://h/api/" None None
    nameless_expired_client
    = (raise "KeyError" "'name'", nameless_expired_client) /\
  isinstance (mk_exn "KeyError" "'name'") "TokenExpiredError" = false.
Proof. vm_compute. repeat split. Qed.

(** C3 (amended): with an expired token (negative remaining time) every
    verb call fails before any request: no request is logged and the
    client state, last response included, is unchanged. The error is
    [TokenExpiredError] when the token's claims carry a ['name'], and
    the error of the ['name'] lookup otherwise. *)
Theorem expired_token_no_request (now : Z) (server : request -> response)
    (c : client) :
  remaining_us (auth c) now < 0 ->
  (forall nm, getitem (claims (auth c)) "name" = Ok nm ->
     forall v url payload hs,
       live_send now server v url payload hs c
         = (raise "TokenExpiredError" "Your token is expired", c)) /\
  (forall e, getitem (claims (auth c)) "name" = Raise e ->
     forall v url payload hs,
       live_send now server v url payload hs c = (Raise e, c)).
Proof.
  intros Hr. split.
  - intros nm Hn v url payload hs.
    destruct (is_expired_named_iff (auth c) now nm Hn) as [[_ T] _].
    unfold live_send, live_check. rewrite (T Hr). reflexivity.
  - intros e He v url payload hs.
    unfold live_send, live_check. rewrite (is_expired_unnamed _ _ e He).
    reflexivity.
Qed.

Lemma expired_token_no_request_witness :
  remaining_us (auth expired_client) (fromtimestamp 200) < 0 /\
  live_send (fromtimestamp 200) (reply 200 "ok") DELETE "https://h/api/x"
    None None expired_client
    = (raise "TokenExpiredError" "Your token is expired", expired_client).
Proof.
  split; [vm_compute; reflexivity|].
  refine (proj1 (expired_token_no_request (fromtimestamp 200) (reply 200 "ok")
                   expired_client _) (PStr "Foo Bar") _ DELETE "https://h/api/x"
                   None None).
  - vm_compute. reflexivity.
  - vm_compute. reflexivity.
Defined.

(* ------------------------------------------------------------------ *)
(** ** C5: [Auth.__init__] with credentials *)




(* ------------------------------------------------------------------ *)
(** ** C4: pagination *)

Open Scope nat_scope.

Lemma assoc_get_key (k : string) (v : pyval) (d : list (string * pyval)) :
  assoc_get k ((k, v) :: d) = Some v.
Proof. simpl. rewrite String.eqb_refl. reflexivity. Qed.

Lemma page_self_href key u nx items :
  getitem (mk_page key u nx items) "_links" ≫= self_href = Ok u.
Proof. reflexivity. Qed.

Lemma page_has_next key u nx items :
  (getitem (mk_page key u nx items) "_links" ≫= fun l => has_key l "next")
  = Ok (match nx with Some _ => true | None => false end).
Proof. destruct nx; reflexivity. Qed.

Lemma page_next_href key u n items :
  next_href (mk_page key u (Some n) items) = Ok n.
Proof. reflexivity. Qed.

Lemma page_items_mk_page key u nx items :
  page_items key (mk_page key u nx items) = items.
Proof.
  unfold page_items, mk_page. simpl. rewrite String.eqb_refl. reflexivity.
Qed.

Lemma paginate_loop_chain (fetch : string -> result pyval) (key : string) :
  forall rs u items fuel,
    served fetch key ((u, items) :: rs) ->
    length rs < fuel ->
    paginate_loop fetch fuel (mk_page key u (next_url rs) items)
      = (build_pages key rs, Finished).
Proof.
  induction rs as [|[u' items'] rs IH]; intros u items fuel Hs Hf;
    destruct fuel as [|fuel]; simpl in Hf; try lia.
  - reflexivity.
  - destruct Hs as [Hfetch Hs]. cbn [paginate_loop].
    change (next_url ((u', items') :: rs)) with (Some u').
    rewrite page_has_next, page_next_href. cbn [mbind result_bind].
    rewrite Hfetch, page_self_href.
    rewrite (IH u' items' fuel Hs ltac:(lia)). reflexivity.
Qed.

Lemma page_items_build key rs :
  List.concat (List.map (page_items key) (build_pages key rs))
  = List.concat (List.map snd rs).
Proof.
  induction rs as [|[u items] rs IH]; [reflexivity|].
  simpl. rewrite page_items_mk_page, IH. reflexivity.
Qed.

Lemma length_build_pages key rs : length (build_pages key rs) = length rs.
Proof. induction rs as [|[u i] rs IH]; simpl; [reflexivity | now rewrite IH]. Qed.

(** C4: for a result set split in pages [(u0, items0) :: rest], each
    linking to the next with [next] and served at its URL, the page
    generator started on the first page yields that page first, then one
    document per further page in order, and finishes when [next] is
    absent; it yields as many documents as there are pages (two for a
    2-page set, one for a 1-page set), and the concatenation of their
    embedded collections is the whole result set. *)
Theorem parse_response_pages (fetch : string -> result pyval) (key : string)
    (u0 : string) (items0 : list pyval) (rest : list (string * list pyval))
    (fuel : nat) :
  served fetch key ((u0, items0) :: rest) ->
  length rest < fuel ->
  let first := mk_page key u0 (next_url rest) items0 in
  let ys := fst (parse_response fetch fuel first) in
  parse_response fetch fuel first
    = (build_pages key ((u0, items0) :: rest), Finished) /\
  hd_error ys = Some first /\
  length ys = length ((u0, items0) :: rest) /\
  List.concat (List.map (page_items key) ys)
    = List.concat (List.map snd ((u0, items0) :: rest)).
Proof.
  intros Hs Hf first ys.
  assert (E : parse_response fetch fuel first
              = (build_pages key ((u0, items0) :: rest), Finished)).
  { unfold parse_response, first. rewrite page_self_href.
    rewrite (paginate_loop_chain fetch key rest u0 items0 fuel Hs Hf).
    reflexivity. }
  subst ys. rewrite E. simpl fst.
  split; [reflexivity|]. split; [reflexivity|]. split.
  - simpl. f_equal. apply length_build_pages.
  - exact (page_items_build key ((u0, items0) :: rest)).
Qed.

Lemma parse_response_pages_witness :
  served two_page_fetch "samples"
    [(page1_url, [PStr "a"; PStr "b"]); (page2_url, [PStr "c"])] /\
  length [(page2_url, [PStr "c"])] < 2 /\
  length (fst (parse_response two_page_fetch 2
                 (mk_page "samples" page1_url (Some page2_url)
                    [PStr "a"; PStr "b"]))) = 2 /\
  List.concat (List.map (page_items "samples")
                 (fst (parse_response two_page_fetch 2
                         (mk_page "samples" page1_url (Some page2_url)
                            [PStr "a"; PStr "b"]))))
    = [PStr "a"; PStr "b"; PStr "c"].
Proof.
  assert (Hs : served two_page_fetch "samples"
                 [(page1_url, [PStr "a"; PStr "b"]); (page2_url, [PStr "c"])])
    by (vm_compute; split; [reflexivity | split; exact I]).
  destruct (parse_response_pages two_page_fetch "samples" page1_url
              [PStr "a"; PStr "b"] [(page2_url, [PStr "c"])] 2 Hs
              ltac:(simpl; lia)) as [_ [_ [Hl Hc]]].
  split; [exact Hs|]. split; [simpl; lia|]. split; [exact Hl | exact Hc].
Defined.

(* ------------------------------------------------------------------ *)
(** ** C6: resource names and the [self] URL *)

Example submission_name_example :
  submission_name
    (self_links "https://h/api/submissions/c8c86558{?projection}")
  = Ok (Some "c8c86558").
Proof. vm_compute. reflexivity. Qed.

Lemma py_replace_if (s old new : string) :
  (if py_contains old s then py_replace s old new else s)
  = py_replace s old new.
Proof.
  destruct (py_contains old s) eqn:E; [reflexivity|].
  symmetry. apply py_replace_absent. exact E.
Qed.

Lemma follow_url_log (now : Z) (server : request -> response) (url : string)
    (c : client) :
  is_expired (auth c) now = Ok false ->
  net_log (snd (follow_url now server url c))
    = mk_request GET url None (headers c) :: net_log c.
Proof.
  intros Hexp. unfold follow_url, client_request, send, check.
  rewrite Hexp. destruct (headers c) as [|h hs]; simpl;
    destruct (Z.eqb _ 200); reflexivity.
Qed.

Lemma self_href_has_self (links : pyval) (href : string) :
  self_href links = Ok href -> has_key links "self" = Ok true.
Proof.
  unfold self_href, getitem, has_key. destruct links; try discriminate.
  destruct (assoc_get "self" d); [reflexivity | discriminate].
Qed.

(** C6 (code bug): for the same [self] URL ending in
    [SAMEA1{?projection}], [Submission.read_data] names the resource
    [SAMEA1] (and [Document.clean_url] strips the marker before a
    request), while [Sample.read_data] names the sample
    [SAMEA1{?projection}]: the marker is kept. *)
Theorem sample_name_keeps_projection_marker :
  sample_name (self_links "https://h/api/samples/SAMEA1{?projection}")
    = Ok (Some "SAMEA1{?projection}") /\
  submission_name (self_links "https://h/api/samples/SAMEA1{?projection}")
    = Ok (Some "SAMEA1") /\
  clean_url "https://h/api/samples/SAMEA1{?projection}"
    = "https://h/api/samples/SAMEA1".
Proof. vm_compute. repeat split. Qed.

(* ------------------------------------------------------------------ *)
(** ** C7: by-name lookups *)

Lemma get_team_by_name_absent (teams : list Team) (name : string) :
  Forall (fun t => team_name t <> name) teams ->
  get_team_by_name teams name
    = raise "NameError" ("team: " ++ name ++ " not found").
Proof.
  induction 1 as [|t ts Ht _ IH]; [reflexivity|].
  simpl. apply String.eqb_neq in Ht. rewrite Ht. exact IH.
Qed.

Lemma get_team_by_name_first (pre : list Team) (t : Team) (post : list Team)
    (name : string) :
  Forall (fun t' => team_name t' <> name) pre -> team_name t = name ->
  get_team_by_name (app pre (t :: post)) name = Ok t.
Proof.
  intros Hpre Ht. induction Hpre as [|t' ts Ht' _ IH]; simpl.
  - rewrite Ht, String.eqb_refl. reflexivity.
  - apply String.eqb_neq in Ht'. rewrite Ht'. exact IH.
Qed.

Lemma get_domain_by_name_absent (domains : list Domain) (name : string) :
  Forall (fun d => domainName d <> name) domains ->
  get_domain_by_name domains name
    = raise "NameError" ("domain: " ++ name ++ " not found").
Proof.
  induction 1 as [|d ds Hd _ IH]; [reflexivity|].
  simpl. apply String.eqb_neq in Hd. rewrite Hd. exact IH.
Qed.

Lemma get_domain_by_name_first (pre : list Domain) (d : Domain)
    (post : list Domain) (name : string) :
  Forall (fun d' => domainName d' <> name) pre -> domainName d = name ->
  get_domain_by_name (app pre (d :: post)) name = Ok d.
Proof.
  intros Hpre Hd. induction Hpre as [|d' ds Hd' _ IH]; simpl.
  - rewrite Hd, String.eqb_refl. reflexivity.
  - apply String.eqb_neq in Hd'. rewrite Hd'. exact IH.
Qed.

(** C7: a team or domain lookup whose candidates all have another name
    raises [NameError] with the requested name in its message, once the
    whole sequence has been scanned; when some candidate matches, the
    first match is returned. The submission lookup asks the service for
    the name directly and raises [NameError] with the name in its message
    when the service answers 404. *)
Theorem by_name_lookups :
  (forall teams name,
     Forall (fun t => team_name t <> name) teams ->
     exists msg, get_team_by_name teams name = raise "NameError" msg /\
                 py_contains name msg = true) /\
  (forall pre t post name,
     Forall (fun t' => team_name t' <> name) pre -> team_name t = name ->
     get_team_by_name (app pre (t :: post)) name = Ok t) /\
  (forall domains name,
     Forall (fun d => domainName d <> name) domains ->
     exists msg, get_domain_by_name domains name = raise "NameError" msg /\
                 py_contains name msg = true) /\
  (forall pre d post name,
     Forall (fun d' => domainName d' <> name) pre -> domainName d = name ->
     get_domain_by_name (app pre (d :: post)) name = Ok d) /\
  (forall now server url_normalize api_root name c,
     is_expired (auth c) now = Ok false ->
     status_code (server (mk_request GET
                    (url_normalize (String.concat "/" [api_root; "submissions"; name]))
                    None (headers c))) = 404%Z ->
     exists msg,
       fst (get_submission_by_name now server url_normalize api_root name c)
         = raise "NameError" msg /\ py_contains name msg = true).
Proof.
  split; [|split; [|split; [|split]]].
  - intros teams name H. eexists. split.
    + apply get_team_by_name_absent, H.
    + apply py_contains_app_mid.
  - apply get_team_by_name_first.
  - intros domains name H. eexists. split.
    + apply get_domain_by_name_absent, H.
    + apply py_contains_app_mid.
  - apply get_domain_by_name_first.
  - intros now server norm api_root name c Hexp H404.
    eexists. split; [|apply (py_contains_app_mid "submission: '")].
    unfold get_submission_by_name, live_send, live_check. cbn [auth headers].
    rewrite Hexp. cbn [mbind result_bind merge_headers headers].
    remember (server (mk_request GET
                (norm (String.concat "/" [api_root; "submissions"; name]))
                None (headers c))) as r eqn:Er.
    unfold classify_status. rewrite H404. simpl. rewrite H404. reflexivity.
Qed.

Lemma by_name_lookups_witness :
  (exists msg,
     get_team_by_name [mk_team "subs.test-team-1" PNone] "subs.other"
       = raise "NameError" msg /\ py_contains "subs.other" msg = true) /\
  get_domain_by_name [mk_domain "subs.test-team-1" PNone]
    "subs.test-team-1" = Ok (mk_domain "subs.test-team-1" PNone) /\
  (exists msg,
     fst (get_submission_by_name 0 (reply 404 "Not Found") (fun u => u)
            "https://h/api" "sub1" live_client)
       = raise "NameError" msg /\ py_contains "sub1" msg = true).
Proof.
  destruct by_name_lookups as [Ht [_ [_ [Hd Hs]]]].
  split; [|split].
  - apply Ht. constructor; [discriminate | constructor].
  - apply (Hd [] (mk_domain "subs.test-team-1" PNone) [] "subs.test-team-1").
    + constructor.
    + reflexivity.
  - apply Hs; vm_compute; reflexivity.
Defined.

(* ------------------------------------------------------------------ *)
(** ** C8: absent collections *)

(** C8 (code bug): with the [samples] key absent from an [_embedded]
    that is present, [get_samples] yields nothing and then raises
    [KeyError('samples')], while [get_user_submissions] checks its
    collection key and ends normally with nothing yielded when
    [submissions] is absent from the same [_embedded]. *)
Theorem get_samples_missing_key_raises :
  get_samples two_page_fetch (fun _ => true) 5 samples_body_no_key
    = ([], Raised (mk_exn "KeyError" "'samples'")) /\
  get_user_submissions two_page_fetch (fun _ => true) 5
    (PDict [("_links", self_links page1_url); ("_embedded", PDict [])])
    = ([], Finished).
Proof. vm_compute. split; reflexivity. Qed.

(* ------------------------------------------------------------------ *)
(** ** C9: the [team] property *)

(** C9 (counterexample): a stored mapping without a [name] entry makes
    the read raise [KeyError('name')]: the read is not total on
    mappings. *)
Lemma team_prop_dict_without_name :
  team_prop (PDict [("description", PStr "a team")])
    = raise "KeyError" "'name'".
Proof. vm_compute. reflexivity. Qed.

(** C9 (amended): a string is returned as it is; a mapping with a
    [name] entry gives that entry and a mapping without one raises
    [KeyError]; [None] gives the empty string; any other stored value
    raises [NotImplementedError]. *)
Theorem team_prop_cases :
  (forall s, team_prop (PStr s) = Ok (PStr s)) /\
  (forall d v, assoc_get "name" d = Some v -> team_prop (PDict d) = Ok v) /\
  (forall d, assoc_get "name" d = None ->
     exists e, team_prop (PDict d) = Raise e /\ isinstance e "KeyError" = true) /\
  team_prop PNone = Ok (PStr "") /\
  (forall v, match v with PStr _ | PDict _ | PNone => False | _ => True end ->
     exists e, team_prop v = Raise e /\
               isinstance e "NotImplementedError" = true).
Proof.
  split; [reflexivity|]. split; [|split; [|split; [reflexivity|]]].
  - intros d v H. simpl. rewrite H. reflexivity.
  - intros d H. simpl. rewrite H. eexists. split; reflexivity.
  - intros [] H; try contradiction; eexists; split; reflexivity.
Qed.

Lemma team_prop_cases_witness :
  team_prop (PDict [("name", PStr "subs.test-team-1")])
    = Ok (PStr "subs.test-team-1") /\
  (exists e, team_prop (PInt 1) = Raise e /\
             isinstance e "NotImplementedError" = true).
Proof.
  destruct team_prop_cases as [_ [Hd [_ [_ Ho]]]]. split.
  - apply Hd. reflexivity.
  - apply Ho. exact I.
Defined.

(* ------------------------------------------------------------------ *)
(** ** C10: [check_releasedate] *)

(** C10: the result always has [releaseDate]; it is the input when the
    key is there, and the input extended with today's date as a string
    otherwise; applying it twice (even on another day) equals applying
    it once. *)
Theorem check_releasedate_spec (today : date) (d : gmap string pyval) :
  is_Some (check_releasedate today d !! "releaseDate") /\
  (is_Some (d !! "releaseDate") -> check_releasedate today d = d) /\
  (d !! "releaseDate" = None ->
     check_releasedate today d
       = <["releaseDate" := PStr (str_date today)]> d) /\
  (forall today', check_releasedate today' (check_releasedate today d)
                  = check_releasedate today d).
Proof.
  unfold check_releasedate.
  destruct (d !! "releaseDate") as [v|] eqn:E; cbv beta iota.
  - split; [exists v; exact E|]. split; [reflexivity|].
    split; [discriminate|]. intros today'. rewrite E. reflexivity.
  - rewrite lookup_insert_eq.
    split; [eexists; reflexivity|]. split; [intros [? ?]; discriminate|].
    split; [reflexivity|]. intros today'. reflexivity.
Qed.

Lemma check_releasedate_spec_witness :
  check_releasedate (mk_date 2020 1 7) ∅
    = <["releaseDate" := PStr "2020-01-07"]> ∅.
Proof.
  destruct (check_releasedate_spec (mk_date 2020 1 7) ∅) as [_ [_ [H _]]].
  rewrite H; [reflexivity | apply lookup_empty].
Defined.

(* ------------------------------------------------------------------ *)
(** ** Further properties of the code *)

Open Scope string_scope.
Open Scope Z_scope.

(* ------------------------------------------------------------------ *)
(** ** Helper lemmas for the further properties *)

(** [is_expired] answers [True] exactly for a past expiry and claims
    carrying a ['name']. *)
Lemma is_expired_spec (a : Auth) (now : Z) :
  is_expired a now = Ok true <->
  expire a - now < 0 /\ exists nm, getitem (claims a) "name" = Ok nm.
Proof.
  destruct (getitem (claims a) "name") as [nm|e] eqn:Hn.
  - destruct (is_expired_named_iff a now nm Hn) as [[T1 T2] _].
    unfold remaining_us in T1, T2. rewrite total_us_timedelta_of_us in T1, T2.
    split; [intros H; split; [auto | eauto] | intros [H _]; auto].
  - rewrite (is_expired_unnamed a now e Hn).
    split; [discriminate | intros [_ [nm X]]; discriminate].
Qed.

(** [is_expired] answers [False] exactly for a future expiry and claims
    carrying a ['name']. *)
Lemma is_expired_false_spec (a : Auth) (now : Z) :
  is_expired a now = Ok false <->
  0 <= expire a - now /\ exists nm, getitem (claims a) "name" = Ok nm.
Proof.
  destruct (getitem (claims a) "name") as [nm|e] eqn:Hn.
  - destruct (is_expired_named_iff a now nm Hn) as [_ [T1 T2]].
    unfold remaining_us in T1, T2. rewrite total_us_timedelta_of_us in T1, T2.
    split; [intros H; split; [auto | eauto] | intros [H _]; auto].
  - rewrite (is_expired_unnamed a now e Hn).
    split; [discriminate | intros [_ [nm X]]; discriminate].
Qed.

Lemma str_app_nil (s : string) : s ++ "" = s.
Proof.
  induction s as [|c s IH]; [reflexivity|].
  change (String c (s ++ "") = String c s). rewrite IH. reflexivity.
Qed.

Lemma str_length_app (a b : string) :
  String.length (a ++ b) = (String.length a + String.length b)%nat.
Proof.
  induction a as [|c a IH]; [reflexivity|].
  change (S (String.length (a ++ b)) = S (String.length a + String.length b))%nat.
  rewrite IH. reflexivity.
Qed.

Lemma hdr_get_dict_set (k v : string) (d : list (string * string)) :
  hdr_get k (dict_set k v d) = Some v.
Proof.
  induction d as [|[k' v'] d IH]; simpl.
  - rewrite String.eqb_refl. reflexivity.
  - destruct (String.eqb k k') eqn:E; simpl; rewrite E; [reflexivity | exact IH].
Qed.

Lemma assoc_get_dict_set (k : string) (v : pyval) (d : list (string * pyval)) :
  assoc_get k (dict_set k v d) = Some v.
Proof.
  induction d as [|[k' v'] d IH]; simpl.
  - rewrite String.eqb_refl. reflexivity.
  - destruct (String.eqb k k') eqn:E; simpl; rewrite E; [reflexivity | exact IH].
Qed.

Lemma dict_set_twice {V : Type} (k : string) (v v' : V) (d : list (string * V)) :
  dict_set k v (dict_set k v' d) = dict_set k v d.
Proof.
  induction d as [|[k1 v1] d IH]; simpl.
  - rewrite String.eqb_refl. reflexivity.
  - destruct (String.eqb k k1) eqn:E; simpl; rewrite E; [reflexivity|].
    rewrite IH. reflexivity.
Qed.

Lemma prefix_marker_other (c : ascii) (s : string) :
  c <> "{"%char -> String.prefix projection_marker (String c s) = false.
Proof.
  intros Hc. change projection_marker with (String "{" "?projection}").
  cbn [String.prefix]. destruct (ascii_dec "{" c) as [E|_]; [congruence | reflexivity].
Qed.

Lemma has_char_cons (c d : ascii) (s : string) :
  has_char c (String d s) = false -> c <> d /\ has_char c s = false.
Proof.
  simpl. intros H. apply orb_false_iff in H as [H1 H2]. split; [|exact H2].
  intros ->. rewrite Ascii.eqb_refl in H1. discriminate.
Qed.

Lemma py_contains_marker_absent (u : string) :
  has_char "{" u = false -> py_contains projection_marker u = false.
Proof.
  induction u as [|c u IH]; intros H; [reflexivity|].
  apply has_char_cons in H as [Hc H].
  cbn [py_contains]. rewrite prefix_marker_other by congruence.
  rewrite IH by exact H. reflexivity.
Qed.

Lemma replace_go_empty (f : nat) (new : string) :
  replace_go f projection_marker new "" = "".
Proof. destruct f; reflexivity. Qed.

Lemma replace_marker_tail (u new : string) (f : nat) :
  has_char "{" u = false -> (String.length u < f)%nat ->
  replace_go f projection_marker new (u ++ projection_marker) = u ++ new.
Proof.
  revert f. induction u as [|c u IH]; intros f H Hf; destruct f as [|f];
    simpl in Hf; try lia.
  - change (new ++ replace_go f projection_marker new "" = new).
    rewrite replace_go_empty. apply str_app_nil.
  - apply has_char_cons in H as [Hc H].
    change (String c u ++ projection_marker) with (String c (u ++ projection_marker)).
    cbn [replace_go]. rewrite prefix_marker_other by congruence.
    rewrite (IH f H) by lia. reflexivity.
Qed.

Lemma clean_url_tail (u : string) :
  has_char "{" u = false -> clean_url (u ++ projection_marker) = u.
Proof.
  intros H. unfold clean_url.
  assert (Hc : py_contains projection_marker (u ++ projection_marker) = true).
  { rewrite <- (str_app_nil projection_marker) at 2. apply py_contains_app_mid. }
  rewrite Hc. unfold py_replace. rewrite replace_marker_tail; [apply str_app_nil | exact H|].
  rewrite str_length_app. lia.
Qed.

Lemma py_replace_marker_tail (u : string) :
  has_char "{" u = false -> py_replace (u ++ projection_marker) projection_marker "" = u.
Proof.
  intros H. unfold py_replace. rewrite replace_marker_tail; [apply str_app_nil | exact H|].
  rewrite str_length_app. lia.
Qed.

Lemma py_split_nonempty (sep : ascii) (s : string) : py_split sep s <> [].
Proof.
  destruct s as [|c s]; simpl; [discriminate|].
  destruct (Ascii.eqb c sep); [discriminate|]. destruct (py_split sep s); discriminate.
Qed.

Lemma py_split_app (sep : ascii) (a b : string) :
  py_split sep (a ++ String sep b) = app (py_split sep a) (py_split sep b).
Proof.
  induction a as [|c a IH].
  - simpl. rewrite Ascii.eqb_refl. reflexivity.
  - change (String c a ++ String sep b) with (String c (a ++ String sep b)).
    cbn [py_split]. rewrite IH.
    destruct (Ascii.eqb c sep); [reflexivity|].
    destruct (py_split sep a) as [|x r] eqn:E; [exfalso; exact (py_split_nonempty sep a E)|].
    reflexivity.
Qed.

Lemma py_split_absent (sep : ascii) (s : string) :
  has_char sep s = false -> py_split sep s = [s].
Proof.
  induction s as [|c s IH]; intros H; [reflexivity|].
  apply has_char_cons in H as [Hc H]. cbn [py_split]. rewrite IH by exact H.
  destruct (Ascii.eqb c sep) eqn:E; [|reflexivity].
  apply Ascii.eqb_eq in E. congruence.
Qed.

Lemma has_char_app (c : ascii) (a b : string) :
  has_char c (a ++ b) = has_char c a || has_char c b.
Proof.
  induction a as [|d a IH]; [reflexivity|].
  change (String d a ++ b) with (String d (a ++ b)).
  cbn [has_char]. rewrite IH. apply orb_assoc.
Qed.

(** X1: once a token is expired it stays expired: [is_expired]
    answering [True] at a time [n1] implies it answers [True] at every
    later time [n2]. *)
Theorem is_expired_monotone (a : Auth) (n1 n2 : Z) :
  is_expired a n1 = Ok true -> n1 <= n2 -> is_expired a n2 = Ok true.
Proof.
  rewrite !is_expired_spec. intros [H Hn] Hle. split; [lia | exact Hn].
Qed.

Lemma is_expired_monotone_witness :
  is_expired (mk_auth "t" alg_header named_claims 0 (fromtimestamp 100))
    (fromtimestamp 300) = Ok true.
Proof.
  apply (is_expired_monotone (mk_auth "t" alg_header named_claims 0 (fromtimestamp 100))
           (fromtimestamp 200) (fromtimestamp 300)).
  - vm_compute. reflexivity.
  - unfold fromtimestamp, US_PER_S. lia.
Defined.



(** X3: without a non-empty user and password, [Auth.__init__] never
    contacts the auth service: it decodes the token when one is given and
    raises [ValueError] otherwise; an empty string counts as missing. *)
Theorem auth_init_without_credentials (jwt : string -> result (pyval * pyval))
    (auth_get : string -> string -> auth_response)
    (user password tok : option string) :
  truthy password && truthy user = false ->
  (truthy tok = false ->
     auth_init jwt auth_get user password tok
       = raise "ValueError" "You need to provide user/password or a valid token") /\
  (truthy tok = true ->
     auth_init jwt auth_get user password tok = set_token jwt (opt_str tok)).
Proof.
  intros H. unfold auth_init. rewrite H. split; intros Ht; rewrite Ht; reflexivity.
Qed.

Lemma auth_init_without_credentials_witness :
  auth_init jwt_unused (fun _ _ => mk_auth_response 200 "tok") (Some "foo")
    (Some "") None
    = raise "ValueError" "You need to provide user/password or a valid token".
Proof.
  apply (auth_init_without_credentials jwt_unused
           (fun _ _ => mk_auth_response 200 "tok") (Some "foo") (Some "") None);
    reflexivity.
Defined.



(** X5: [Client.headers] is one dict shared by every client: building a
    second client replaces the [Authorization] entry the first one set,
    and a later default-header request of the first client carries the
    second client's token. *)
Theorem client_headers_shared (now : Z) (server : request -> response)
    (a1 a2 : Auth) (cls0 : list (string * string)) (url : string) :
  is_expired a1 now = Ok false ->
  let cls2 := set_auth a2 (set_auth a1 cls0) in
  net_log (snd (client_request now server url None
                  (at_class cls2 (new_client a1 cls0))))
    = [mk_request GET url None cls2] /\
  hdr_get "Authorization" cls2 = Some ("Bearer " ++ token a2) /\
  cls2 = set_auth a2 cls0.
Proof.
  intros Hexp cls2. split; [|split].
  - unfold client_request, send, check. simpl auth. rewrite Hexp. reflexivity.
  - apply hdr_get_dict_set.
  - unfold cls2, set_auth. apply dict_set_twice.
Qed.

Lemma client_headers_shared_witness :
  hdr_get "Authorization"
    (req_headers (List.hd (mk_request GET "" None [])
       (net_log (snd (client_request 0 (reply 200 "ok") "https://h/api/" None
          (at_class (set_auth (auth_with "tok2") (set_auth (auth_with "tok1") default_headers))
             (new_client (auth_with "tok1") default_headers)))))))
    = Some "Bearer tok2".
Proof.
  destruct (client_headers_shared 0 (reply 200 "ok") (auth_with "tok1")
              (auth_with "tok2") default_headers "https://h/api/")
    as [Hl [Ha _]]; [vm_compute; reflexivity|].
  rewrite Hl. exact Ha.
Defined.

(** X6: a non-empty header dict passed to a verb is sent as it is, not
    merged with the default headers (so a dict without [Authorization]
    goes out without it); an empty dict falls back to the defaults. *)
Theorem explicit_headers_replace_defaults (now : Z) (server : request -> response)
    (v : verb) (url : string) (payload : option pyval) (h : string * string)
    (hs : list (string * string)) (c : client) :
  is_expired (auth c) now = Ok false ->
  net_log (snd (send now server v url payload (Some (h :: hs)) c))
    = mk_request v url payload (h :: hs) :: net_log c /\
  net_log (snd (send now server v url payload (Some []) c))
    = mk_request v url payload (headers c) :: net_log c.
Proof.
  intros Hexp. unfold send, check. rewrite Hexp. split; reflexivity.
Qed.

Lemma explicit_headers_replace_defaults_witness :
  net_log (snd (send 0 (reply 201 "") POST "https://h/api/user/teams"
                  (Some (PDict [])) (Some [("Content-Type", content_type_json)])
                  live_client))
    = [mk_request POST "https://h/api/user/teams" (Some (PDict []))
         [("Content-Type", content_type_json)]].
Proof.
  destruct (explicit_headers_replace_defaults 0 (reply 201 "") POST
              "https://h/api/user/teams" (Some (PDict []))
              ("Content-Type", content_type_json) [] live_client)
    as [H _]; [vm_compute; reflexivity|].
  exact H.
Defined.

(** X7: [Document.clean_url] turns a templated URL [u{?projection}]
    into [u] when [u] has no ['{'], and leaves such a [u] unchanged; so
    cleaning twice is cleaning once on these URLs. *)
Theorem clean_url_template (u : string) :
  has_char "{" u = false ->
  clean_url (u ++ projection_marker) = u /\ clean_url u = u /\
  clean_url (clean_url (u ++ projection_marker)) = clean_url (u ++ projection_marker).
Proof.
  intros H. rewrite clean_url_tail by exact H.
  assert (E : clean_url u = u).
  { unfold clean_url. rewrite py_contains_marker_absent by exact H. reflexivity. }
  rewrite E. split; [reflexivity | split; reflexivity].
Qed.

Lemma clean_url_template_witness :
  clean_url "https://h/api/submissions/s1{?projection}"
    = "https://h/api/submissions/s1".
Proof.
  apply (clean_url_template "https://h/api/submissions/s1"). reflexivity.
Defined.

(** X8: [Document.read_url] requests the URL with the [{?projection}]
    marker removed, once, through a new client whose headers are the
    class dict carrying the given token. *)
Theorem read_url_requests_clean (now : Z) (server : request -> response)
    (a : Auth) (cls : list (string * string)) (u : string) :
  is_expired a now = Ok false -> has_char "{" u = false ->
  net_log (snd (read_url now server a cls (u ++ projection_marker)))
    = [mk_request GET u None (set_auth a cls)] /\
  hdr_get "Authorization" (set_auth a cls) = Some ("Bearer " ++ token a).
Proof.
  intros Hexp Hu. split; [|apply hdr_get_dict_set].
  unfold read_url. rewrite clean_url_tail by exact Hu.
  rewrite follow_url_log by exact Hexp. reflexivity.
Qed.

Lemma read_url_requests_clean_witness :
  net_log (snd (read_url 0 (reply 200 "ok") (auth_with "tok") default_headers
                  "https://h/api/submissions/s1{?projection}"))
    = [mk_request GET "https://h/api/submissions/s1" None
         (set_auth (auth_with "tok") default_headers)].
Proof.
  apply (read_url_requests_clean 0 (reply 200 "ok") (auth_with "tok")
           default_headers "https://h/api/submissions/s1");
    [vm_compute | ]; reflexivity.
Defined.

(** X9: [Document.follow_url(tag)] raises [KeyError(tag)] without any
    request when the links have no such tag; otherwise it requests the
    [href] as it is, with no [{?projection}] cleaning, unlike
    [follow_self_url]. *)
Theorem document_follow_url_tag (now : Z) (server : request -> response)
    (links : pyval) (tag : string) (c : client) :
  (forall d, links = PDict d -> assoc_get tag d = None ->
     document_follow_url now server links tag c
       = (raise "KeyError" ("'" ++ tag ++ "'"), c)) /\
  (forall href, link_href links tag = Ok href -> is_expired (auth c) now = Ok false ->
     net_log (snd (document_follow_url now server links tag c))
       = mk_request GET href None (headers c) :: net_log c).
Proof.
  split.
  - intros d -> Hd. unfold document_follow_url, link_href. simpl. rewrite Hd.
    reflexivity.
  - intros href Hh Hexp. unfold document_follow_url. rewrite Hh.
    apply follow_url_log, Hexp.
Qed.

Lemma document_follow_url_tag_witness :
  net_log (snd (document_follow_url 0 (reply 200 "ok")
                  (PDict [("submissions", PDict [("href", PStr "https://h/api/s{?projection}")])])
                  "submissions" live_client))
    = [mk_request GET "https://h/api/s{?projection}" None (headers live_client)] /\
  document_follow_url 0 (reply 200 "ok") (PDict []) "contents" live_client
    = (raise "KeyError" "'contents'", live_client).
Proof.
  destruct (document_follow_url_tag 0 (reply 200 "ok")
              (PDict [("submissions", PDict [("href", PStr "https://h/api/s{?projection}")])])
              "submissions" live_client) as [_ H].
  destruct (document_follow_url_tag 0 (reply 200 "ok") (PDict []) "contents"
              live_client) as [K _].
  split.
  - apply H; [reflexivity | vm_compute; reflexivity].
  - apply (K []); reflexivity.
Defined.

Lemma update_key_ne (o : gmap string pyval) (k k' : string) (v : pyval) (f : bool) :
  k <> k' -> update_key o k' v f !! k = o !! k.
Proof.
  intros H. unfold update_key.
  destruct (o !! k'); [|destruct f]; try reflexivity; apply lookup_insert_ne; congruence.
Qed.

Lemma update_key_eq (o : gmap string pyval) (k : string) (v : pyval) (f : bool) :
  update_key o k v f !! k
    = match o !! k with Some _ => Some v | None => if f then Some v else None end.
Proof.
  unfold update_key. destruct (o !! k) eqn:E; [apply lookup_insert_eq|].
  destruct f; [apply lookup_insert_eq | exact E].
Qed.

Lemma foldl_update_key_strict (k : string) :
  forall (data : list (string * pyval)) (o : gmap string pyval),
  o !! k = None ->
  foldl (fun o kv => update_key o kv.1 kv.2 false) o data !! k = None.
Proof.
  induction data as [|[k' v'] data IH]; intros o H; [exact H|].
  simpl. apply IH. destruct (String.eq_dec k k') as [->|Hne].
  - rewrite update_key_eq, H. reflexivity.
  - rewrite update_key_ne by exact Hne. exact H.
Qed.

(** X11: without [force], [read_data] creates no attribute except
    [data]: a name the instance lacks stays absent whatever keys the
    data carries, duplicates included. *)
Theorem read_data_strict_no_new_attributes (obj : gmap string pyval)
    (data : list (string * pyval)) (k : string) :
  k <> "data" -> obj !! k = None -> read_data obj data false !! k = None.
Proof.
  intros Hk H. unfold read_data. rewrite lookup_insert_ne by congruence.
  apply foldl_update_key_strict, H.
Qed.

Lemma read_data_strict_no_new_attributes_witness :
  read_data (<["name" := PNone]> ∅) [("submitter", PStr "u"); ("submitter", PStr "v")]
    false !! "submitter" = None.
Proof.
  apply read_data_strict_no_new_attributes; [discriminate | reflexivity].
Defined.



Lemma extend_tpage (key u0 : string) (n0 : option string) (acc items : list pyval)
    (total : Z) :
  extend_all (PDict (tpage_items key u0 n0 acc total)) [(key, PList items)]
    = Ok (PDict (tpage_items key u0 n0 (app acc items) total)).
Proof.
  unfold extend_all, extend_embedded, tpage_items. cbn.
  rewrite !String.eqb_refl. reflexivity.
Qed.

Lemma paginate_pages_chain (fetch : string -> result pyval) (key u0 : string)
    (n0 : option string) (total : Z) :
  forall rs u items acc fuel data,
    served fetch key ((u, items) :: rs) -> (length rs < fuel)%nat ->
    getitem data "_links" = getitem (mk_page key u (next_url rs) items) "_links" ->
    paginate_pages fetch fuel (PDict (tpage_items key u0 n0 acc total)) data
      = Some (Ok (PDict (tpage_items key u0 n0
                           (app acc (List.concat (map snd rs))) total))).
Proof.
  induction rs as [|[u' items'] rs IH]; intros u items acc fuel data Hs Hf Hl;
    destruct fuel as [|fuel]; simpl in Hf; try lia.
  - cbn [paginate_pages]. rewrite Hl. cbn. rewrite app_nil_r. reflexivity.
  - destruct Hs as [Hfetch Hs]. cbn [paginate_pages]. rewrite Hl.
    change (next_url ((u', items') :: rs)) with (Some u').
    unfold next_href. rewrite Hl. cbn -[extend_all tpage_items].
    rewrite Hfetch. cbn -[extend_all tpage_items].
    rewrite extend_tpage.
    cbn [mbind result_bind].
    rewrite (IH u' items' (app acc items') fuel _ Hs ltac:(lia) eq_refl).
    rewrite <- app_assoc. reflexivity.
Qed.

(** X13: on a body with [page.totalPages > 1] that starts a chain of
    pages linked by [next], [Document.parse_response] (client.py) follows
    every page and reads one merged body: its embedded collection is the
    concatenation of all pages' collections, in order, while its [_links]
    and [page] stay those of the first page (its [next] link included). *)
Theorem parse_response_merges_pages (fetch : string -> result pyval)
    (key u0 : string) (items0 : list pyval) (rest : list (string * list pyval))
    (fuel : nat) (obj : gmap string pyval) (force : bool) (total : Z) :
  served fetch key ((u0, items0) :: rest) -> (length rest < fuel)%nat ->
  1 < total ->
  let all := List.concat (map snd ((u0, items0) :: rest)) in
  paginate fetch fuel (PDict (tpage_items key u0 (next_url rest) items0 total))
    = Some (Ok (PDict (tpage_items key u0 (next_url rest) all total))) /\
  doc_parse_response fetch fuel obj
    (PDict (tpage_items key u0 (next_url rest) items0 total)) force
    = Some (Ok (read_data obj (tpage_items key u0 (next_url rest) all total)
                  force)).
Proof.
  intros Hs Hf Ht all.
  assert (E : paginate fetch fuel
                (PDict (tpage_items key u0 (next_url rest) items0 total))
              = Some (Ok (PDict (tpage_items key u0 (next_url rest) all total)))).
  { unfold paginate.
    rewrite (paginate_pages_chain fetch key u0 (next_url rest) total rest u0
               items0 items0 fuel _ Hs Hf); reflexivity. }
  split; [exact E|].
  unfold doc_parse_response. rewrite E. unfold has_pages. cbn.
  replace (Z.ltb 1 total) with true by lia. reflexivity.
Qed.

Lemma parse_response_merges_pages_witness :
  paginate two_page_fetch 2
    (PDict (tpage_items "samples" page1_url (Some page2_url) [PStr "a"; PStr "b"] 2))
    = Some (Ok (PDict (tpage_items "samples" page1_url (Some page2_url)
                         [PStr "a"; PStr "b"; PStr "c"] 2))).
Proof.
  assert (Hs : served two_page_fetch "samples"
                 [(page1_url, [PStr "a"; PStr "b"]); (page2_url, [PStr "c"])])
    by (vm_compute; split; [reflexivity | split; exact I]).
  destruct (parse_response_merges_pages two_page_fetch "samples" page1_url
              [PStr "a"; PStr "b"] [(page2_url, [PStr "c"])] 2 ∅ false 2 Hs
              ltac:(simpl; lia) ltac:(lia)) as [H _].
  exact H.
Defined.

Lemma assoc_get_dict_set_ne (k k' : string) (v : pyval) (d : list (string * pyval)) :
  k <> k' -> assoc_get k (dict_set k' v d) = assoc_get k d.
Proof.
  intros Hne. induction d as [|[k1 v1] d IH]; simpl.
  - apply String.eqb_neq in Hne. rewrite Hne. reflexivity.
  - destruct (String.eqb k' k1) eqn:E; simpl.
    + apply String.eqb_eq in E. subst k1. apply String.eqb_neq in Hne. rewrite Hne.
      reflexivity.
    + destruct (String.eqb k k1); [reflexivity | exact IH].
Qed.

Lemma with_team_added (team : pyval) (r : list (string * pyval)) :
  team_added team r (with_team team r).
Proof.
  unfold team_added, with_team. destruct (assoc_get "team" r) as [t|] eqn:E.
  - split; [exact E|]. split; [reflexivity | reflexivity].
  - split; [apply assoc_get_dict_set|]. split; [intros [? H]; discriminate|].
    intros k Hk. apply assoc_get_dict_set_ne, Hk.
Qed.

Lemma Forall2_map_self {A B} (P : A -> B -> Prop) (f : A -> B) (l : list A) :
  (forall x, P x (f x)) -> Forall2 P l (map f l).
Proof. intros H. induction l; constructor; auto. Qed.

Lemma add_team_dicts (team : pyval) (rels : list (list (string * pyval)))
    (rest : list pyval) :
  add_team team (app (map PDict rels) rest)
    = (app (map PDict (map (with_team team) rels)) (add_team team rest).1,
       (add_team team rest).2).
Proof.
  induction rels as [|r rels IH]; simpl.
  - destruct (add_team team rest); reflexivity.
  - unfold with_team at 1. destruct (assoc_get "team" r) eqn:E; cbn [py_setitem];
      rewrite IH; reflexivity.
Qed.

Lemma add_team_err_indep (t1 t2 : pyval) (l : list pyval) :
  (add_team t1 l).2 = (add_team t2 l).2.
Proof.
  induction l as [|r rs IH]; [reflexivity|]. simpl.
  destruct (py_in "team" r) as [[|]|e]; [| |reflexivity].
  - destruct (add_team t1 rs), (add_team t2 rs). exact IH.
  - destruct r; simpl; try reflexivity.
    destruct (add_team t1 rs), (add_team t2 rs). exact IH.
Qed.

Lemma add_team_ok_fixed (team team2 : pyval) :
  forall l l', add_team team l = (l', None) -> add_team team2 l' = (l', None).
Proof.
  induction l as [|r rs IH]; intros l' H; simpl in H.
  - inversion H. reflexivity.
  - destruct (py_in "team" r) as [[|]|e] eqn:Ein; [| |discriminate].
    + destruct (add_team team rs) as [rs' err] eqn:E. inversion H; subst.
      simpl. rewrite Ein, (IH rs' eq_refl). reflexivity.
    + destruct (py_setitem r "team" team) as [r'|e] eqn:Es; [|discriminate].
      destruct (add_team team rs) as [rs' err] eqn:E. inversion H; subst.
      destruct r; try discriminate. simpl in Es. inversion Es; subst.
      simpl. rewrite assoc_get_dict_set, (IH rs' eq_refl). reflexivity.
Qed.

Lemma add_team_ok_dicts (team : pyval) :
  forall l l', add_team team l = (l', None) -> Forall dict_has_team l'.
Proof.
  induction l as [|r rs IH]; intros l' H; simpl in H.
  - inversion H. constructor.
  - destruct (py_in "team" r) as [[|]|e] eqn:Ein; [| |discriminate].
    + destruct (add_team team rs) as [rs' err] eqn:E. inversion H; subst.
      constructor; [|exact (IH rs' eq_refl)].
      intros d ->. simpl in Ein. destruct (assoc_get "team" d); [eexists; reflexivity|].
      discriminate.
    + destruct (py_setitem r "team" team) as [r'|e] eqn:Es; [|discriminate].
      destruct (add_team team rs) as [rs' err] eqn:E. inversion H; subst.
      constructor; [|exact (IH rs' eq_refl)].
      destruct r; try discriminate. simpl in Es. inversion Es; subst.
      intros d' Hd. inversion Hd; subst. rewrite assoc_get_dict_set. eexists; reflexivity.
Qed.

Lemma check_relationship_ok (team : pyval) (sd g : gmap string pyval) :
  fst (check_relationship team sd) = Ok g ->
  snd (check_relationship team sd) = g /\
  ((exists l l', sd !! "sampleRelationships" = Some (PList l) /\
                 add_team team l = (l', None) /\
                 g = <["sampleRelationships" := PList l']> sd) \/
   (g = sd /\ forall l, sd !! "sampleRelationships" <> Some (PList l))).
Proof.
  unfold check_relationship.
  destruct (sd !! "sampleRelationships") as [v|] eqn:Hv.
  - destruct v as [| | | |l|d];
      [ | | | | destruct (add_team team l) as [l' [e|]] eqn:E | ];
      try (destruct (py_iter _) as [xs|e]; cbn;
           [destruct (add_team team xs) as [? [e|]]|]);
      cbn; intros H; try discriminate; inversion H; subst; clear H;
      (split; [reflexivity|]);
      try (right; split; [reflexivity | intros l0; discriminate]).
    left. exists l, l'. auto.
  - intros H. inversion H; subst. split; [reflexivity|]. right.
    split; [reflexivity | intros l; discriminate].
Qed.

Lemma check_releasedate_other (today : date) (g : gmap string pyval) (k : string) :
  k <> "releaseDate" -> check_releasedate today g !! k = g !! k.
Proof.
  intros Hk. unfold check_releasedate. destruct (g !! "releaseDate"); [reflexivity|].
  apply lookup_insert_ne. congruence.
Qed.

Lemma check_releasedate_has (today : date) (g : gmap string pyval) :
  is_Some (check_releasedate today g !! "releaseDate").
Proof.
  unfold check_releasedate. destruct (g !! "releaseDate") eqn:E.
  - rewrite E. eexists; reflexivity.
  - rewrite lookup_insert_eq. eexists; reflexivity.
Qed.

(** X14: [check_relationship] leaves a sample with no
    [sampleRelationships] as it is; on a list of relationship dicts it
    gives each dict without a [team] the given team, keeps every dict
    that has one (its team is never overwritten) and changes no other
    entry. *)
Theorem check_relationship_adds_team :
  (forall team sd, sd !! "sampleRelationships" = None ->
     check_relationship team sd = (Ok sd, sd)) /\
  (forall team sd rels,
     sd !! "sampleRelationships" = Some (PList (map PDict rels)) ->
     exists rels', Forall2 (team_added team) rels rels' /\
       fst (check_relationship team sd)
         = Ok (<["sampleRelationships" := PList (map PDict rels')]> sd)).
Proof.
  split.
  - intros team sd H. unfold check_relationship. rewrite H. reflexivity.
  - intros team sd rels H. exists (map (with_team team) rels).
    split; [apply Forall2_map_self, with_team_added|].
    unfold check_relationship. rewrite H.
    rewrite <- (app_nil_r (map PDict rels)), add_team_dicts. simpl.
    rewrite app_nil_r. reflexivity.
Qed.

Lemma check_relationship_adds_team_witness :
  exists rels', Forall2 (team_added (PStr "subs.test-team-1"))
                  [[("alias", PStr "a")]] rels' /\
    fst (check_relationship (PStr "subs.test-team-1")
           (<["sampleRelationships" := PList [PDict [("alias", PStr "a")]]]> ∅))
      = Ok (<["sampleRelationships" := PList (map PDict rels')]>
              (<["sampleRelationships" := PList [PDict [("alias", PStr "a")]]]> ∅)).
Proof.
  destruct check_relationship_adds_team as [_ H].
  apply H. apply lookup_insert_eq.
Defined.

(** X15: the copy [check_relationship] makes is shallow, so the caller's
    [sample_data] ends up equal to the returned dict whenever the call
    succeeds; when a relationship that cannot take a [team] (a str
    without ["team"] in it) stops the loop with [TypeError], the dicts
    before it have already been given the team in the caller's data. *)
Theorem check_relationship_aliasing :
  (forall team sd g, fst (check_relationship team sd) = Ok g ->
     snd (check_relationship team sd) = g) /\
  (forall team sd pre s post,
     sd !! "sampleRelationships" = Some (PList (app (map PDict pre) (PStr s :: post))) ->
     py_contains "team" s = false ->
     exists e pre', Forall2 (team_added team) pre pre' /\
       isinstance e "TypeError" = true /\
       check_relationship team sd
         = (Raise e, <["sampleRelationships" :=
                         PList (app (map PDict pre') (PStr s :: post))]> sd)).
Proof.
  split.
  - intros team sd g H. apply (check_relationship_ok team sd g H).
  - intros team sd pre s post H Hs.
    exists (mk_exn "TypeError" "'str' object does not support item assignment"),
      (map (with_team team) pre).
    split; [apply Forall2_map_self, with_team_added|]. split; [reflexivity|].
    unfold check_relationship. rewrite H, add_team_dicts. cbn [add_team py_in].
    rewrite Hs. reflexivity.
Qed.

Lemma check_relationship_aliasing_witness :
  exists e pre', Forall2 (team_added (PStr "T")) [[("alias", PStr "a")]] pre' /\
    isinstance e "TypeError" = true /\
    check_relationship (PStr "T")
      (<["sampleRelationships" := PList [PDict [("alias", PStr "a")]; PStr "b"]]> ∅)
      = (Raise e, <["sampleRelationships" :=
                     PList (app (map PDict pre') [PStr "b"])]>
                    (<["sampleRelationships" :=
                        PList [PDict [("alias", PStr "a")]; PStr "b"]]> ∅)).
Proof.
  destruct check_relationship_aliasing as [_ H].
  apply (H (PStr "T") _ [[("alias", PStr "a")]] "b" []).
  - apply lookup_insert_eq.
  - reflexivity.
Defined.

(** X16: a successful [check_relationship] result is a fixed point:
    calling it again, with any team, succeeds, changes nothing and leaves
    the teams already set. *)
Theorem check_relationship_idempotent (team team2 : pyval)
    (sd g : gmap string pyval) :
  fst (check_relationship team sd) = Ok g ->
  check_relationship team2 g = (Ok g, g).
Proof.
  intros H. destruct (check_relationship_ok team sd g H)
    as [_ [(l & l' & Hl & Ha & ->) | [-> Hnl]]].
  - unfold check_relationship. rewrite lookup_insert_eq.
    rewrite (add_team_ok_fixed team team2 l l' Ha). cbn.
    rewrite insert_insert_eq. reflexivity.
  - unfold check_relationship in H |- *.
    destruct (sd !! "sampleRelationships") as [v|]; [|reflexivity].
    destruct v as [| | | |l|d]; [| | | |exfalso; exact (Hnl l eq_refl)|];
      destruct (py_iter _) as [xs|e]; cbn in H |- *; try discriminate;
      pose proof (add_team_err_indep team team2 xs) as Hi;
      destruct (add_team team xs) as [a1 e1], (add_team team2 xs) as [a2 e2];
      simpl in Hi; subst e2; destruct e1; try discriminate; reflexivity.
Qed.

Lemma check_relationship_idempotent_witness :
  check_relationship (PStr "other")
    (<["sampleRelationships" :=
        PList [PDict [("alias", PStr "a"); ("team", PStr "T")]]]> ∅)
    = (Ok (<["sampleRelationships" :=
              PList [PDict [("alias", PStr "a"); ("team", PStr "T")]]]> ∅),
       <["sampleRelationships" :=
          PList [PDict [("alias", PStr "a"); ("team", PStr "T")]]]> ∅).
Proof.
  apply (check_relationship_idempotent (PStr "T") (PStr "other")
           (<["sampleRelationships" := PList [PDict [("alias", PStr "a")]]]> ∅)).
  unfold check_relationship. rewrite lookup_insert_eq. cbn.
  rewrite insert_insert_eq. reflexivity.
Defined.

(** X17: the payload [Submission.create_sample] and [Sample.patch]
    send, [check_releasedate(check_relationship(data, team))], always
    has a [releaseDate], every relationship dict in it has a [team], and
    every other entry is the caller's. *)
Theorem fixed_sample_data (today : date) (team : pyval)
    (sd p : gmap string pyval) :
  fix_sample_data today team sd = Ok p ->
  is_Some (p !! "releaseDate") /\
  (forall l, p !! "sampleRelationships" = Some (PList l) -> Forall dict_has_team l) /\
  (forall k, k <> "sampleRelationships" -> k <> "releaseDate" -> p !! k = sd !! k).
Proof.
  unfold fix_sample_data.
  destruct (fst (check_relationship team sd)) as [g|e] eqn:E; [|discriminate].
  cbn. intros H. inversion H; subst p. clear H.
  split; [apply check_releasedate_has|].
  destruct (check_relationship_ok team sd g E)
    as [_ [(l & l' & Hl & Ha & ->) | [-> Hnl]]].
  - split.
    + intros l0. rewrite check_releasedate_other by discriminate.
      rewrite lookup_insert_eq. intros Heq. inversion Heq; subst.
      exact (add_team_ok_dicts team l l0 Ha).
    + intros k Hk Hr. rewrite check_releasedate_other by exact Hr.
      apply lookup_insert_ne. congruence.
  - split.
    + intros l0. rewrite check_releasedate_other by discriminate.
      intros Hl. exfalso. exact (Hnl l0 Hl).
    + intros k _ Hr. apply check_releasedate_other, Hr.
Qed.

Lemma fixed_sample_data_witness :
  is_Some (check_releasedate (mk_date 2020 1 7)
             (<["sampleRelationships" :=
                 PList [PDict [("alias", PStr "a"); ("team", PStr "T")]]]> ∅)
           !! "releaseDate") /\
  (forall l, check_releasedate (mk_date 2020 1 7)
               (<["sampleRelationships" :=
                   PList [PDict [("alias", PStr "a"); ("team", PStr "T")]]]> ∅)
             !! "sampleRelationships" = Some (PList l) ->
             Forall dict_has_team l) /\
  (forall k, k <> "sampleRelationships" -> k <> "releaseDate" ->
     check_releasedate (mk_date 2020 1 7)
       (<["sampleRelationships" :=
           PList [PDict [("alias", PStr "a"); ("team", PStr "T")]]]> ∅) !! k
     = (<["sampleRelationships" := PList [PDict [("alias", PStr "a")]]]> ∅ : gmap string pyval) !! k).
Proof.
  apply (fixed_sample_data (mk_date 2020 1 7) (PStr "T")
           (<["sampleRelationships" := PList [PDict [("alias", PStr "a")]]]> ∅)).
  unfold fix_sample_data, check_relationship. rewrite lookup_insert_eq. cbn.
  rewrite insert_insert_eq. reflexivity.
Defined.

Lemma existsb_eqb_in (k : string) (ign : list string) :
  existsb (String.eqb k) ign = true <-> In k ign.
Proof.
  rewrite existsb_exists. split.
  - intros (x & Hx & E). apply String.eqb_eq in E. subst. exact Hx.
  - intros H. exists k. split; [exact H | apply String.eqb_refl].
Qed.

Lemma has_errors_loop_ok (msgs : pyval) (ign : list string) :
  forall items acc,
  Forall (fun kv => unignored_error ign kv = true ->
            exists m, (getitem msgs kv.1 ≫= py_join ", ") = Ok m) items ->
  has_errors_loop msgs ign items acc = Ok (acc || existsb (unignored_error ign) items).
Proof.
  induction items as [|[k v] items IH]; intros acc H.
  - simpl. rewrite orb_false_r. reflexivity.
  - inversion H as [|? ? Hkv Hrest]; subst. cbn [has_errors_loop existsb].
    change (is_str_eq "Error" v && negb (existsb (String.eqb k) ign))
      with (unignored_error ign (k, v)).
    destruct (unignored_error ign (k, v)) eqn:E.
    + destruct (Hkv eq_refl) as [m Hm]. cbn [fst] in Hm. rewrite Hm.
      cbn [mbind result_bind]. rewrite IH by exact Hrest.
      destruct acc; reflexivity.
    + rewrite IH by exact Hrest. reflexivity.
Qed.

Lemma has_errors_loop_ignored (msgs : pyval) (ign : list string) :
  forall items acc,
  Forall (fun kv => In kv.1 ign) items ->
  has_errors_loop msgs ign items acc = Ok acc.
Proof.
  induction items as [|[k v] items IH]; intros acc H; [reflexivity|].
  inversion H as [|? ? Hk Hrest]; subst. cbn [has_errors_loop].
  apply existsb_eqb_in in Hk. cbn [fst] in Hk. rewrite Hk, andb_false_r.
  apply IH, Hrest.
Qed.

(** X18: [ValidationResult.has_errors(ignorelist)] is [True] exactly
    when some databank outside [ignorelist] has the outcome ['Error'],
    provided the error messages of those databanks can be joined; when
    every databank is ignored it is [False] without reading any
    message. *)
Theorem vr_has_errors_spec (v : validation) (ign : list string)
    (items : list (string * pyval)) :
  overallValidationOutcomeByAuthor v = PDict items ->
  (Forall (fun kv => unignored_error ign kv = true ->
             exists m, (getitem (errorMessages v) kv.1 ≫= py_join ", ") = Ok m)
          items ->
   vr_has_errors v ign = Ok (existsb (unignored_error ign) items)) /\
  (Forall (fun kv => In kv.1 ign) items -> vr_has_errors v ign = Ok false).
Proof.
  intros Ho. unfold vr_has_errors. rewrite Ho. cbn [dict_view mbind result_bind].
  split; intros H.
  - apply (has_errors_loop_ok _ _ items false H).
  - apply has_errors_loop_ignored, H.
Qed.

Lemma vr_has_errors_spec_witness :
  vr_has_errors (mk_validation "Complete"
                   (PDict [("Ena", PStr "Error"); ("BioSamples", PStr "Pass")])
                   PNone) ["Ena"; "BioSamples"] = Ok false.
Proof.
  destruct (vr_has_errors_spec (mk_validation "Complete"
                   (PDict [("Ena", PStr "Error"); ("BioSamples", PStr "Pass")])
                   PNone) ["Ena"; "BioSamples"]
              [("Ena", PStr "Error"); ("BioSamples", PStr "Pass")] eq_refl)
    as [_ H].
  apply H. constructor; [simpl; auto|]. constructor; [simpl; auto|].
  constructor.
Defined.

Lemma has_errors_loop_raises (msgs : pyval) (ign : list string) (k : string)
    (e0 : exn) :
  ~ In k ign -> (getitem msgs k ≫= py_join ", ") = Raise e0 ->
  forall items acc, In (k, PStr "Error") items ->
  exists e, has_errors_loop msgs ign items acc = Raise e.
Proof.
  intros Hk Hm. induction items as [|[k' v'] items IH]; intros acc Hin;
    [inversion Hin|].
  cbn [has_errors_loop].
  destruct Hin as [Heq | Hin].
  - inversion Heq; subst. cbn [is_str_eq]. rewrite String.eqb_refl.
    destruct (existsb (String.eqb k) ign) eqn:E;
      [exfalso; apply Hk, existsb_eqb_in, E|].
    cbn [negb andb]. rewrite Hm. eexists; reflexivity.
  - destruct (is_str_eq "Error" v' && negb (existsb (String.eqb k') ign)).
    + destruct (getitem msgs k' ≫= py_join ", ") as [m|e]; cbn [mbind result_bind].
      * apply IH, Hin.
      * eexists; reflexivity.
    + apply IH, Hin.
Qed.

(** X19: a databank outside [ignorelist] with the outcome ['Error'] and
    no entry in [errorMessages] makes [ValidationResult.has_errors] raise
    instead of answering. *)
Theorem vr_has_errors_missing_messages (v : validation) (ign : list string)
    (items ms : list (string * pyval)) (k : string) :
  overallValidationOutcomeByAuthor v = PDict items ->
  In (k, PStr "Error") items -> ~ In k ign ->
  errorMessages v = PDict ms -> assoc_get k ms = None ->
  exists e, vr_has_errors v ign = Raise e.
Proof.
  intros Ho Hin Hk Hm Hms. unfold vr_has_errors. rewrite Ho.
  cbn [dict_view mbind result_bind].
  apply (has_errors_loop_raises _ ign k (mk_exn "KeyError" ("'" ++ k ++ "'")) Hk);
    [|exact Hin].
  rewrite Hm. cbn [getitem]. rewrite Hms. reflexivity.
Qed.

Lemma vr_has_errors_missing_messages_witness :
  exists e, vr_has_errors (mk_validation "Complete" (PDict [("Ena", PStr "Error")])
                             (PDict [])) [] = Raise e.
Proof.
  apply (vr_has_errors_missing_messages _ [] [("Ena", PStr "Error")] [] "Ena");
    [reflexivity | left; reflexivity | intros [] | reflexivity | reflexivity].
Defined.

Lemma counter_add_in {A : Type} (eqb : A -> A -> bool)
    (Heqb : forall a b, eqb a b = true <-> a = b) (x y : A) (c : list (A * nat)) :
  counter_in eqb y (counter_add eqb x c) = counter_in eqb y c || eqb x y.
Proof.
  induction c as [|[k n] c IH]; cbn [counter_add].
  - unfold counter_in. simpl. rewrite orb_false_r. reflexivity.
  - destruct (eqb k x) eqn:E.
    + apply Heqb in E. subst k. unfold counter_in. cbn [existsb fst].
      destruct (eqb x y); simpl; [reflexivity | rewrite orb_false_r; reflexivity].
    + unfold counter_in in *. cbn [existsb fst]. rewrite IH. apply orb_assoc.
Qed.

Lemma counter_in_counter {A : Type} (eqb : A -> A -> bool)
    (Heqb : forall a b, eqb a b = true <-> a = b) (y : A) (xs : list A) :
  counter_in eqb y (counter eqb xs) = existsb (fun x => eqb x y) xs.
Proof.
  unfold counter.
  assert (G : forall c0, counter_in eqb y (foldl (fun c x => counter_add eqb x c) c0 xs)
                        = counter_in eqb y c0 || existsb (fun x => eqb x y) xs).
  { induction xs as [|x xs IH]; intros c0; simpl.
    - rewrite orb_false_r. reflexivity.
    - rewrite IH, counter_add_in by exact Heqb. rewrite orb_assoc. reflexivity. }
  rewrite G. reflexivity.
Qed.

Lemma existsb_status_in (s : string) (l : list string) :
  existsb (fun x => String.eqb x s) l = true <-> In s l.
Proof.
  rewrite existsb_exists. split.
  - intros (x & Hx & E). apply String.eqb_eq in E. subst. exact Hx.
  - intros H. exists s. split; [exact H | apply String.eqb_refl].
Qed.

Lemma existsb_eqb_true (bs : list bool) :
  existsb (fun b => Bool.eqb b true) bs = existsb (fun b => b) bs.
Proof. induction bs as [|[] bs IH]; simpl; [reflexivity | reflexivity | exact IH]. Qed.

Lemma mapM_result_ok {A B : Type} (f : A -> result B) (xs : list A) (bs : list B) :
  Forall2 (fun x b => f x = Ok b) xs bs -> mapM f xs = Ok bs.
Proof.
  induction 1 as [|x b xs bs Hx _ IH]; [reflexivity|].
  cbn [mapM]. rewrite Hx, IH. reflexivity.
Qed.

(** X20: [Submission.finalize] refuses a submission that is not ready,
    refuses one with a validation result still ['Pending'], and
    otherwise raises [USIDataError] exactly when some validation result
    reports errors outside [ignorelist]; when none does it goes on to
    finalize. *)
Theorem finalize_checks_outcomes (vs : list validation) (ign : list string) :
  finalize_checks false vs ign
    = raise "NotReadyError" "Submission not ready for finalization" /\
  (In "Pending" (map validationStatus vs) ->
   finalize_checks true vs ign
     = raise "NotReadyError" "You can check errors after validation is completed") /\
  (~ In "Pending" (map validationStatus vs) ->
   forall bs, Forall2 (fun v b => vr_has_errors v ign = Ok b) vs bs ->
   finalize_checks true vs ign
     = if existsb (fun b => b) bs
       then raise "USIDataError" "Submission has errors, fix them"
       else Ok tt).
Proof.
  split; [reflexivity|]. unfold finalize_checks, submission_has_errors, get_status.
  cbn [negb]. rewrite counter_in_counter by apply String.eqb_eq. split.
  - intros Hp. apply existsb_status_in in Hp. rewrite Hp. reflexivity.
  - intros Hnp bs Hbs.
    destruct (existsb (fun x => String.eqb x "Pending") (map validationStatus vs)) eqn:E;
      [exfalso; apply Hnp, existsb_status_in, E|].
    rewrite (mapM_result_ok _ _ _ Hbs). cbn [mbind result_bind].
    rewrite counter_in_counter by apply Bool.eqb_true_iff.
    rewrite existsb_eqb_true. reflexivity.
Qed.

Lemma finalize_checks_outcomes_witness :
  finalize_checks true
    [mk_validation "Complete" (PDict [("Ena", PStr "Error")])
       (PDict [("Ena", PList [PStr "bad taxon"])]);
     mk_validation "Complete" (PDict [("Ena", PStr "Pass")]) (PDict [])] []
  = raise "USIDataError" "Submission has errors, fix them".
Proof.
  refine (proj2 (proj2 (finalize_checks_outcomes
    [mk_validation "Complete" (PDict [("Ena", PStr "Error")])
       (PDict [("Ena", PList [PStr "bad taxon"])]);
     mk_validation "Complete" (PDict [("Ena", PStr "Pass")]) (PDict [])] []))
    _ [true; false] _).
  - simpl. intros [H | [H | []]]; discriminate.
  - constructor; [reflexivity|]. constructor; [reflexivity|]. constructor.
Defined.

(** X21: for a [self] URL [base/id{?projection}] whose last segment
    [id] has no [/] and no [{], [Submission.read_data] names the
    submission [id] while [Sample.read_data] keeps the marker and names
    the sample [id{?projection}]. *)
Theorem names_from_self_link (links : pyval) (base id : string) :
  self_href links = Ok (base ++ "/" ++ id ++ projection_marker) ->
  has_char slash id = false -> has_char "{" id = false ->
  submission_name links = Ok (Some id) /\
  sample_name links = Ok (Some (id ++ projection_marker)).
Proof.
  intros H Hs Hb.
  assert (Hl : last_item (py_split slash (base ++ "/" ++ id ++ projection_marker))
               = id ++ projection_marker).
  { change ("/" ++ id ++ projection_marker)
      with (String slash (id ++ projection_marker)).
    rewrite py_split_app, (py_split_absent slash (id ++ projection_marker)).
    - unfold last_item. apply List.last_last.
    - rewrite has_char_app, Hs. reflexivity. }
  assert (Hc : py_contains projection_marker (id ++ projection_marker) = true).
  { rewrite <- (str_app_nil projection_marker) at 2. apply py_contains_app_mid. }
  split.
  - unfold submission_name. rewrite (self_href_has_self _ _ H), H.
    cbn [mbind result_bind]. rewrite Hl, Hc, py_replace_marker_tail by exact Hb.
    reflexivity.
  - unfold sample_name. rewrite (self_href_has_self _ _ H), H.
    cbn [mbind result_bind]. rewrite Hl. reflexivity.
Qed.

Lemma names_from_self_link_witness :
  submission_name (self_links "https://h/api/samples/SAMEA1{?projection}")
    = Ok (Some "SAMEA1") /\
  sample_name (self_links "https://h/api/samples/SAMEA1{?projection}")
    = Ok (Some "SAMEA1{?projection}").
Proof.
  apply (names_from_self_link _ "https://h/api/samples" "SAMEA1");
    vm_compute; reflexivity.
Defined.

(** X22: [Domain.__str__] prints ["domain not yet initialized"] while
    [domainReference] is unset or empty, raises [IndexError] for a
    reference without [-], and for a reference [p-q] (no further [-])
    prints [q], the name and the description. *)
Theorem domain_str_cases (name desc : option string) :
  (forall r, truthy r = false ->
     domain_str r name desc = Ok "domain not yet initialized") /\
  (forall s, s <> "" -> has_char "-"%char s = false ->
     domain_str (Some s) name desc = raise "IndexError" "list index out of range") /\
  (forall p q, has_char "-"%char p = false -> has_char "-"%char q = false ->
     domain_str (Some (p ++ "-" ++ q)) name desc
       = Ok (q ++ " " ++ str_opt name ++ " " ++ str_opt desc)).
Proof.
  split; [intros r H; unfold domain_str; rewrite H; reflexivity|]. split.
  - intros s Hs Hd. unfold domain_str. cbn [truthy opt_str].
    destruct (String.eqb s "") eqn:E; [apply String.eqb_eq in E; contradiction|].
    cbn [negb]. rewrite py_split_absent by exact Hd. reflexivity.
  - intros p q Hp Hq. unfold domain_str. cbn [truthy opt_str].
    assert (E : String.eqb (p ++ "-" ++ q) "" = false) by (destruct p; reflexivity).
    rewrite E. cbn [negb]. change ("-" ++ q) with (String "-"%char q).
    rewrite py_split_app, !py_split_absent by assumption. reflexivity.
Qed.

Lemma domain_str_cases_witness :
  domain_str (Some "self-PRJ1") (Some "dom") None = Ok "PRJ1 dom None" /\
  domain_str (Some "PRJ1") None None = raise "IndexError" "list index out of range".
Proof.
  destruct (domain_str_cases (Some "dom") None) as [_ [_ H3]].
  destruct (domain_str_cases None None) as [_ [H2 _]].
  split.
  - apply (H3 "self" "PRJ1"); reflexivity.
  - apply H2; [discriminate | reflexivity].
Defined.

Section CounterFacts.
Context {A : Type} (eqb : A -> A -> bool).
Hypothesis Heqb : forall a b, eqb a b = true <-> a = b.

Lemma counter_get_add (x y : A) (c : list (A * nat)) :
  counter_get eqb x (counter_add eqb y c)
    = (counter_get eqb x c + if eqb y x then 1 else 0)%nat.
Proof.
  unfold counter_get. induction c as [|[k n] c IH]; cbn [counter_add].
  - simpl. destruct (eqb y x); reflexivity.
  - destruct (eqb k y) eqn:Eky.
    + apply Heqb in Eky. subst k. cbn [List.find fst snd].
      destruct (eqb y x); simpl; lia.
    + cbn [List.find]. simpl fst. destruct (eqb k x) eqn:Ekx; [|exact IH].
      apply Heqb in Ekx. subst k. destruct (eqb y x) eqn:Eyx; [|lia].
      apply Heqb in Eyx. subst y. rewrite (proj2 (Heqb x x) eq_refl) in Eky.
      discriminate.
Qed.

Lemma counter_keys_add (k y : A) (c : list (A * nat)) :
  In k (map fst (counter_add eqb y c)) -> In k (map fst c) \/ k = y.
Proof.
  induction c as [|[k' n] c IH]; cbn [counter_add].
  - simpl. intros [<- | []]. right; reflexivity.
  - destruct (eqb k' y); simpl; [tauto|]. intros [-> | H]; [tauto|].
    destruct (IH H); tauto.
Qed.

Lemma counter_nodup_add (y : A) (c : list (A * nat)) :
  List.NoDup (map fst c) -> List.NoDup (map fst (counter_add eqb y c)).
Proof.
  induction c as [|[k n] c IH]; cbn [counter_add]; intros Hnd.
  - simpl. constructor; [intros H; exact H | constructor].
  - inversion Hnd as [|? ? Hk Hrest]; subst.
    destruct (eqb k y) eqn:E; [exact Hnd|].
    simpl. constructor; [|exact (IH Hrest)].
    intros Hin. destruct (counter_keys_add k y c Hin) as [H | ->]; [exact (Hk H)|].
    rewrite (proj2 (Heqb y y) eq_refl) in E. discriminate.
Qed.

Lemma counter_pos_add (y : A) (c : list (A * nat)) :
  Forall (fun kn => (0 < kn.2)%nat) c ->
  Forall (fun kn => (0 < kn.2)%nat) (counter_add eqb y c).
Proof.
  induction c as [|[k n] c IH]; cbn [counter_add]; intros H.
  - constructor; [simpl; lia | constructor].
  - inversion H as [|? ? Hk Hrest]; subst. destruct (eqb k y).
    + constructor; [simpl; lia | exact Hrest].
    + constructor; [exact Hk | exact (IH Hrest)].
Qed.

Lemma counter_sum_add (y : A) (c : list (A * nat)) :
  list_sum (map snd (counter_add eqb y c)) = S (list_sum (map snd c)).
Proof.
  induction c as [|[k n] c IH]; cbn [counter_add]; [reflexivity|].
  destruct (eqb k y); simpl; [reflexivity|]. simpl in IH. rewrite IH. lia.
Qed.

Lemma counter_foldl_facts (xs : list A) :
  forall c0,
  List.NoDup (map fst c0) -> Forall (fun kn => (0 < kn.2)%nat) c0 ->
  let c := foldl (fun c x => counter_add eqb x c) c0 xs in
  List.NoDup (map fst c) /\ Forall (fun kn => (0 < kn.2)%nat) c /\
  (forall x, counter_get eqb x c
             = (counter_get eqb x c0 + length (List.filter (fun y => eqb y x) xs))%nat) /\
  list_sum (map snd c) = (list_sum (map snd c0) + length xs)%nat.
Proof.
  induction xs as [|y xs IH]; intros c0 Hnd Hpos; simpl.
  - repeat split; [exact Hnd | exact Hpos | intros x; lia | lia].
  - destruct (IH (counter_add eqb y c0) (counter_nodup_add y c0 Hnd)
                 (counter_pos_add y c0 Hpos)) as (H1 & H2 & H3 & H4).
    repeat split; [exact H1 | exact H2 | | ].
    + intros x. rewrite H3, counter_get_add.
      destruct (eqb y x); simpl; lia.
    + rewrite H4, counter_sum_add. lia.
Qed.
End CounterFacts.

(** X23: [Submission.get_status()] is a [Counter] of the validation
    statuses: each status appears once, with a positive count; looking a
    status up gives the number of results that have it ([0] when none
    has); the counts add up to the number of validation results. *)
Theorem get_status_counts (vs : list validation) :
  List.NoDup (map fst (get_status vs)) /\
  Forall (fun kn => (0 < kn.2)%nat) (get_status vs) /\
  (forall s, counter_get String.eqb s (get_status vs)
             = length (List.filter (fun x => String.eqb x s) (map validationStatus vs))) /\
  list_sum (map snd (get_status vs)) = length vs.
Proof.
  unfold get_status, counter.
  destruct (counter_foldl_facts String.eqb String.eqb_eq (map validationStatus vs) []
              (List.NoDup_nil _) (List.Forall_nil _)) as (H1 & H2 & H3 & H4).
  repeat split; [exact H1 | exact H2 | |].
  - intros s. rewrite H3. reflexivity.
  - rewrite H4, length_map. reflexivity.
Qed.

(** X24: with a live token, [request], [post], [patch], [delete] and
    [put] never look at the status: they send one request with the given
    verb, URL and payload and return the service's response, whatever
    its status; unlike [follow_url] they record no last response and
    leave the token and the default headers alone. *)
Theorem verbs_return_unchecked (now : Z) (server : request -> response)
    (v : verb) (url : string) (p : option pyval)
    (hs : option (list (string * string))) (c : client) :
  is_expired (auth c) now = Ok false ->
  exists rq,
    fst (send now server v url p hs c) = Ok (server rq) /\
    net_log (snd (send now server v url p hs c)) = rq :: net_log c /\
    req_verb rq = v /\ req_url rq = url /\ req_payload rq = p /\
    last_response (snd (send now server v url p hs c)) = last_response c /\
    last_status_code (snd (send now server v url p hs c)) = last_status_code c /\
    auth (snd (send now server v url p hs c)) = auth c /\
    headers (snd (send now server v url p hs c)) = headers c.
Proof.
  intros Hexp. unfold send, check. rewrite Hexp.
  destruct hs as [[|h0 h]|]; cbn [fst snd];
    eexists; repeat split; reflexivity.
Qed.

Lemma verbs_return_unchecked_witness :
  exists rq,
    fst (send 0 (reply 500 "Server Error") POST "https://h/api/x" (Some PNone) None
           live_client) = Ok (reply 500 "Server Error" rq) /\
    net_log (snd (send 0 (reply 500 "Server Error") POST "https://h/api/x" (Some PNone)
                    None live_client)) = rq :: net_log live_client /\
    req_verb rq = POST /\ req_url rq = "https://h/api/x" /\ req_payload rq = Some PNone /\
    last_response (snd (send 0 (reply 500 "Server Error") POST "https://h/api/x"
                          (Some PNone) None live_client)) = last_response live_client /\
    last_status_code (snd (send 0 (reply 500 "Server Error") POST "https://h/api/x"
                             (Some PNone) None live_client)) = last_status_code live_client /\
    auth (snd (send 0 (reply 500 "Server Error") POST "https://h/api/x" (Some PNone)
                 None live_client)) = auth live_client /\
    headers (snd (send 0 (reply 500 "Server Error") POST "https://h/api/x" (Some PNone)
                    None live_client)) = headers live_client.
Proof. apply verbs_return_unchecked. vm_compute. reflexivity. Defined.

Lemma zpad_length_upto (w : nat) (bound : Z) :
  forallb (fun n => Nat.eqb (String.length (zpad w (Z.of_nat n))) w)
    (seq 0 (Z.to_nat bound)) = true ->
  forall z, 0 <= z < bound -> String.length (zpad w z) = w.
Proof.
  intros H z Hz. rewrite forallb_forall in H.
  specialize (H (Z.to_nat z)). rewrite Z2Nat.id in H by lia.
  apply Nat.eqb_eq, H, in_seq. lia.
Qed.

Lemma zpad4_length (z : Z) : 0 <= z <= 9999 -> String.length (zpad 4 z) = 4%nat.
Proof.
  intros Hz. apply (zpad_length_upto 4 10000); [vm_compute; reflexivity | lia].
Qed.

Lemma zpad2_length (z : Z) : 0 <= z <= 99 -> String.length (zpad 2 z) = 2%nat.
Proof.
  intros Hz. apply (zpad_length_upto 2 100); [vm_compute; reflexivity | lia].
Qed.

Lemma get_after (k n : nat) (a b : string) :
  String.length a = n -> String.get (k + n) (a ++ b) = String.get k b.
Proof. intros <-. symmetry. apply String.append_correct2. Qed.

(** X26: the [releaseDate] [check_releasedate] fills in, [str(date)],
    is [YYYY-MM-DD]: ten characters with dashes at positions 4 and 7,
    for every year up to 9999 (a year below 1000 is zero-padded). *)
Theorem str_date_format (t : date) :
  0 <= year t <= 9999 -> 0 <= month t <= 99 -> 0 <= day t <= 99 ->
  String.length (str_date t) = 10%nat /\
  String.get 4 (str_date t) = Some "-"%char /\
  String.get 7 (str_date t) = Some "-"%char.
Proof.
  intros Hy Hm Hd. unfold str_date.
  pose proof (zpad4_length _ Hy) as Ly. pose proof (zpad2_length _ Hm) as Lm.
  pose proof (zpad2_length _ Hd) as Ld.
  split; [|split].
  - rewrite !str_length_app, Ly, Lm, Ld. reflexivity.
  - rewrite (get_after 0 4 _ _ Ly). reflexivity.
  - rewrite (get_after 3 4 _ _ Ly).
    change ("-" ++ zpad 2 (month t) ++ "-" ++ zpad 2 (day t))
      with (String "-"%char (zpad 2 (month t) ++ "-" ++ zpad 2 (day t))).
    cbn [String.get]. exact (get_after 0 2 _ _ Lm).
Qed.

Lemma str_date_format_witness :
  String.length (str_date (mk_date 987 6 5)) = 10%nat /\
  String.get 4 (str_date (mk_date 987 6 5)) = Some "-"%char /\
  String.get 7 (str_date (mk_date 987 6 5)) = Some "-"%char.
Proof. apply str_date_format; simpl; lia. Defined.
